(** * debug-offline-storage.py: the offline-storage inspection script

    A shallow embedding of [scripts/debug-offline-storage.py].  The script
    opens the SQLite catalogue, runs a fixed sequence of [SELECT] statements
    over [offline_manga], [offline_chapters] and [download_queue], and prints
    an inventory followed by three anomaly checks.

    - Python values that may be [None] are [option]s; an exception that
      leaves a function is a [Raise] result.
    - A SQL statement is a function of the database; SQL's three-valued
      logic is written out ([option bool], [None] being SQL NULL).
    - [ORDER BY] is left to the engine ([SqlEngine]): SQL fixes the result
      up to the order of rows that agree on every sort key.  A join without
      [ORDER BY] is read as nested loops in table order; what is proved of
      it looks at which rows come back and how many, not at their order.
    - The clock counts epoch milliseconds, like the stored timestamps;
      [strftime('%s', 'now')] reads it in whole seconds.
    - A [print] call appends one structured line to the output; number and
      date formatting is not modelled. *)

From Stdlib Require Import ZArith QArith List String Ascii Bool Lia.
From Stdlib Require Import Permutation Sorted.
From Stdlib Require Import OrderedTypeEx DecimalString.
From Stdlib Require DecimalZ DecimalPos.
Import ListNotations.

Local Open Scope string_scope.
Local Open Scope Z_scope.

(* ================================================================== *)
(** ** Python results *)

Module Py.

(** The exceptions the script can meet. *)
Inductive exn : Type :=
| OperationalError (msg : string)   (* sqlite3: e.g. no such table *)
| ZeroDivisionError
| TypeError                         (* e.g. formatting [None] with [:.1f] *)
| SystemExit (code : Z).

Inductive result (A : Type) : Type :=
| Ok (a : A)
| Raise (e : exn).

Arguments Ok {A} a.
Arguments Raise {A} e.

(** [x or d] on a value that is [None] or an integer: [None] and [0] are
    both falsy. *)
Definition or_int (x : option Z) (d : Z) : Z :=
  match x with
  | None => d
  | Some v => if v =? 0 then d else v
  end.

(** Truthiness of an optional integer ([if x:]). *)
Definition truthy_int (x : option Z) : bool :=
  match x with
  | None => false
  | Some v => negb (v =? 0)
  end.

(** Truthiness of an optional string: [None] and the empty string are falsy. *)
Definition truthy_str (x : option string) : bool :=
  match x with
  | None => false
  | Some s => negb (String.eqb s "")
  end.

(** [x or d] on an optional string. *)
Definition or_str (x : option string) (d : string) : string :=
  match x with
  | None => d
  | Some s => if String.eqb s "" then d else s
  end.

(** [x > n] where [x] is known to be an integer when the comparison is
    reached (the script tests [x] for truthiness first). *)
Definition gt_int (x : option Z) (n : Z) : bool :=
  match x with
  | None => false
  | Some v => v >? n
  end.

(** [a / b] (true division), read as an exact rational: a [None] divisor
    is a type error and a zero divisor raises. *)
Definition truediv (a : Z) (b : option Z) : result Q :=
  match b with
  | None => Raise TypeError
  | Some d =>
      if d =? 0 then Raise ZeroDivisionError
      else Ok (inject_Z a / inject_Z d)%Q
  end.

(** [{x:.1f}] on a value that may be [None]: [None] has no such format. *)
Definition format_fixed (x : option Z) : result Q :=
  match x with
  | None => Raise TypeError
  | Some v => Ok (inject_Z v)
  end.

(** [str.upper] restricted to the ASCII letters. *)
Definition upper_ascii (c : ascii) : ascii :=
  let n := nat_of_ascii c in
  if (Nat.leb 97 n && Nat.leb n 122)%bool then ascii_of_nat (n - 32) else c.

Fixpoint upper (s : string) : string :=
  match s with
  | EmptyString => EmptyString
  | String c r => String (upper_ascii c) (upper r)
  end.

End Py.

Import Py.

(* ================================================================== *)
(** ** SQL expressions *)

Module Sql.

(** A truth value of SQL: [None] is NULL (unknown). *)
Definition tv := option bool.

Definition and3 (a b : tv) : tv :=
  match a, b with
  | Some false, _ | _, Some false => Some false
  | Some true, Some true => Some true
  | _, _ => None
  end.

Definition or3 (a b : tv) : tv :=
  match a, b with
  | Some true, _ | _, Some true => Some true
  | Some false, Some false => Some false
  | _, _ => None
  end.

(** [x = y]: NULL as soon as one side is NULL. *)
Definition eq3 {A} (eqb : A -> A -> bool) (x y : option A) : tv :=
  match x, y with
  | Some a, Some b => Some (eqb a b)
  | _, _ => None
  end.

(** [x > y] on integers. *)
Definition gt3 (x y : option Z) : tv :=
  match x, y with
  | Some a, Some b => Some (a >? b)
  | _, _ => None
  end.

Definition is_null {A} (x : option A) : tv :=
  Some (match x with None => true | Some _ => false end).

Definition is_not_null {A} (x : option A) : tv :=
  Some (match x with None => false | Some _ => true end).

(** A [WHERE] or [ON] condition keeps a row only when it is true. *)
Definition holds (c : tv) : bool :=
  match c with
  | Some true => true
  | _ => false
  end.

(** [x - y] on integers, NULL-propagating. *)
Definition sub3 (x y : option Z) : option Z :=
  match x, y with
  | Some a, Some b => Some (a - b)
  | _, _ => None
  end.

(** [x / y] on integers: SQLite truncates toward zero, and a zero divisor
    gives NULL. *)
Definition div3 (x y : option Z) : option Z :=
  match x, y with
  | Some a, Some b => if b =? 0 then None else Some (Z.quot a b)
  | _, _ => None
  end.

(** The range of a stored integer: 64 bits, signed. *)
Definition int64_min : Z := - 2 ^ 63.
Definition int64_max : Z := 2 ^ 63 - 1.

Definition in_int64 (z : Z) : bool := (int64_min <=? z) && (z <=? int64_max).

(** [SUM(x)] over integers, row after row: NULL values are skipped, and the
    running sum is a 64-bit integer; when an addition leaves that range the
    statement fails with "integer overflow".  [acc] is [None] as long as no
    row has contributed. *)
Fixpoint sum_from (acc : option Z) (xs : list (option Z)) : result (option Z) :=
  match xs with
  | [] => Ok acc
  | None :: rest => sum_from acc rest
  | Some v :: rest =>
      let s := match acc with None => v | Some a => a + v end in
      if in_int64 s then sum_from (Some s) rest
      else Raise (OperationalError "integer overflow")
  end.

(** [SUM(x)]: NULL when no row contributes a value. *)
Definition sum (xs : list (option Z)) : result (option Z) := sum_from None xs.

(** [COUNT( * )]. *)
Definition count {A} (rows : list A) : Z := Z.of_nat (List.length rows).

(** [name LIKE 'prefix%']: LIKE ignores the case of ASCII letters. *)
Fixpoint like_prefix (prefix s : string) : bool :=
  match prefix, s with
  | EmptyString, _ => true
  | String a p, String b r =>
      (Ascii.eqb (upper_ascii a) (upper_ascii b) && like_prefix p r)%bool
  | String _ _, EmptyString => false
  end.

End Sql.

(** What the engine does with [ORDER BY]: the rows come back as a
    permutation of the selected rows, sorted by the keys whenever the key
    order is a total preorder.  Nothing is promised about rows that agree on
    all keys. *)
Class SqlEngine : Type := {
  order_by : forall {A : Type}, (A -> A -> bool) -> list A -> list A;
  order_by_perm :
    forall (A : Type) (le : A -> A -> bool) (l : list A),
      Permutation l (order_by le l);
  order_by_sorted :
    forall (A : Type) (le : A -> A -> bool) (l : list A),
      (forall x y, le x y = true \/ le y x = true) ->
      (forall x y z, le x y = true -> le y z = true -> le x z = true) ->
      StronglySorted (fun x y => le x y = true) (order_by le l)
}.

(** Insertion sort: keeps rows with equal keys in their input order. *)
Fixpoint insert_sorted {A} (le : A -> A -> bool) (x : A) (l : list A) : list A :=
  match l with
  | [] => [x]
  | y :: r => if le x y then x :: l else y :: insert_sorted le x r
  end.

Fixpoint insertion_sort {A} (le : A -> A -> bool) (l : list A) : list A :=
  match l with
  | [] => []
  | x :: r => insert_sorted le x (insertion_sort le r)
  end.

(* ================================================================== *)
(** ** The persisted tables *)

(** Modelled from the spec: the [CREATE TABLE] statements of
    [offline_manga], [offline_chapters] and [download_queue] are not part of
    the script.  The columns are those the script's statements name.  A
    column is an [option] where the data model marks it nullable or
    optional, or where the script itself tests it for NULL or emptiness
    ([chapter_id], [started_at], [error_message], [progress_total],
    [chapter_title], [total_pages]); the other columns are read as plain
    values.  Integer columns, and the timestamps in epoch milliseconds, are
    [Z]; [chapter_number] may be fractional and is a rational. *)
Module om.
Record row : Type := {
  id : Z;
  extension_id : string;
  manga_id : string;
  manga_slug : string;
  downloaded_at : Z;
  last_updated_at : option Z;
  total_size_bytes : Z
}.
End om.

Module oc.
Record row : Type := {
  id : Z;
  offline_manga_id : Z;
  chapter_id : string;
  chapter_number : Q;
  chapter_title : option string;
  total_pages : option Z;
  downloaded_at : Z;
  size_bytes : Z
}.
End oc.

Module dq.
Record row : Type := {
  id : Z;
  extension_id : string;
  manga_id : string;
  manga_slug : string;
  chapter_id : option string;
  chapter_number : option Q;
  chapter_title : option string;
  status : string;
  priority : Z;
  queued_at : Z;
  started_at : option Z;
  completed_at : option Z;
  error_message : option string;
  progress_current : Z;
  progress_total : option Z
}.
End dq.

(** A row of [sqlite_master]. *)
Module master.
Record row : Type := {
  type : string;
  name : string
}.
End master.

(** The catalogue file.  A table that was never created is [None]; a
    statement that names it fails.  [other_objects] are the remaining
    entries of [sqlite_master] (indexes, other tables). *)
Record Database : Type := {
  offline_manga : option (list om.row);
  offline_chapters : option (list oc.row);
  download_queue : option (list dq.row);
  other_objects : list master.row
}.

Definition master_entry {A} (name : string) (t : option (list A)) : list master.row :=
  match t with
  | Some _ => [ {| master.type := "table"; master.name := name |} ]
  | None => []
  end.

Definition sqlite_master (db : Database) : list master.row :=
  master_entry "offline_manga" (offline_manga db)
  ++ master_entry "offline_chapters" (offline_chapters db)
  ++ master_entry "download_queue" (download_queue db)
  ++ other_objects db.

(** [FROM t]: the rows of the table, or sqlite3's error when it is absent. *)
Definition from_table {A} (name : string) (t : option (list A)) : result (list A) :=
  match t with
  | Some rows => Ok rows
  | None => Raise (OperationalError ("no such table: " ++ name))
  end.

(** Sequencing of fallible pure steps. *)
Definition rbind {A B} (r : result A) (k : A -> result B) : result B :=
  match r with
  | Ok a => k a
  | Raise e => Raise e
  end.

Notation "'let*' x ':=' r 'in' k" := (rbind r (fun x => k))
  (at level 10, x name, r at level 100, k at level 200).

(* ================================================================== *)
(** ** The statements of [inspect_database] *)

(** Rows of the joined listings and of the three checks, with the columns
    each [SELECT] names. *)
Module chapter_listing.
Record row : Type := {
  id : Z;
  manga_slug : string;
  chapter_id : string;
  chapter_number : Q;
  chapter_title : option string;
  total_pages : option Z;
  downloaded_at : Z;
  size_bytes : Z
}.
End chapter_listing.

Module dup.
Record row : Type := {
  queue_id : Z;
  chapter_id : option string;
  chapter_number : option Q;
  queue_status : string;
  manga_slug : string
}.
End dup.

Module frozen.
Record row : Type := {
  id : Z;
  manga_slug : string;
  chapter_number : option Q;
  started_at : option Z;
  minutes_elapsed : option Z
}.
End frozen.

Module zero.
Record row : Type := {
  manga_slug : string;
  chapter_id : string;
  chapter_number : Q;
  total_pages : option Z
}.
End zero.

(** [strftime('%s', 'now')]: the clock in whole seconds since the epoch.
    The clock itself counts milliseconds, like the stored timestamps. *)
Definition strftime_s (clock_ms : Z) : Z := clock_ms / 1000.

(** [ORDER BY downloaded_at DESC]. *)
Definition by_downloaded_desc (a b : om.row) : bool :=
  om.downloaded_at b <=? om.downloaded_at a.

(** [ORDER BY om.manga_slug, oc.chapter_number]. *)
Definition by_slug_number (a b : chapter_listing.row) : bool :=
  String.ltb (chapter_listing.manga_slug a) (chapter_listing.manga_slug b)
  || (String.eqb (chapter_listing.manga_slug a) (chapter_listing.manga_slug b)
      && Qle_bool (chapter_listing.chapter_number a) (chapter_listing.chapter_number b)).

(** [ORDER BY chapter_number]. *)
Definition by_number (a b : oc.row) : bool :=
  Qle_bool (oc.chapter_number a) (oc.chapter_number b).

(** [ORDER BY priority DESC, queued_at ASC]. *)
Definition by_priority_desc_queued_asc (a b : dq.row) : bool :=
  (dq.priority a >? dq.priority b)
  || ((dq.priority a =? dq.priority b) && (dq.queued_at a <=? dq.queued_at b)).

(** [ON oc.offline_manga_id = om.id]. *)
Definition owned_by (c : oc.row) (m : om.row) : bool :=
  oc.offline_manga_id c =? om.id m.

(** [ON dq.extension_id = om.extension_id AND dq.manga_id = om.manga_id]. *)
Definition same_work (q : dq.row) (m : om.row) : bool :=
  String.eqb (dq.extension_id q) (om.extension_id m)
  && String.eqb (dq.manga_id q) (om.manga_id m).

(** [ON oc.offline_manga_id = om.id AND oc.chapter_id = dq.chapter_id]. *)
Definition same_chapter (q : dq.row) (m : om.row) (c : oc.row) : bool :=
  Sql.holds (Sql.and3 (Some (owned_by c m))
                      (Sql.eq3 String.eqb (Some (oc.chapter_id c)) (dq.chapter_id q))).

Definition mk_dup (q : dq.row) (m : om.row) : dup.row :=
  {| dup.queue_id := dq.id q;
     dup.chapter_id := dq.chapter_id q;
     dup.chapter_number := dq.chapter_number q;
     dup.queue_status := dq.status q;
     dup.manga_slug := om.manga_slug m |}.

(** The rows the duplicate check returns for one queue entry: one per
    work and chapter that the two [JOIN]s pair with it, kept by
    [WHERE dq.chapter_id IS NOT NULL]. *)
Definition duplicate_rows_of (oms : list om.row) (ocs : list oc.row) (q : dq.row)
  : list dup.row :=
  if Sql.holds (Sql.is_not_null (dq.chapter_id q)) then
    flat_map (fun m => map (fun _ => mk_dup q m) (filter (same_chapter q m) ocs))
             (filter (same_work q) oms)
  else [].

(** [WHERE status = 'downloading' AND started_at IS NOT NULL
     AND (strftime('%s', 'now') * 1000 - started_at) > 3600000]. *)
Definition frozen_where (clock_ms : Z) (q : dq.row) : bool :=
  Sql.holds
    (Sql.and3
       (Sql.and3 (Some (String.eqb (dq.status q) "downloading"))
                 (Sql.is_not_null (dq.started_at q)))
       (Sql.gt3 (Sql.sub3 (Some (strftime_s clock_ms * 1000)) (dq.started_at q))
                (Some 3600000))).

(** [(strftime('%s', 'now') * 1000 - started_at) / 1000 / 60]: every operand
    is an integer, so both divisions are integer divisions. *)
Definition minutes_elapsed (clock_ms : Z) (q : dq.row) : option Z :=
  Sql.div3
    (Sql.div3 (Sql.sub3 (Some (strftime_s clock_ms * 1000)) (dq.started_at q))
              (Some 1000))
    (Some 60).

Definition mk_frozen (clock_ms : Z) (q : dq.row) : frozen.row :=
  {| frozen.id := dq.id q;
     frozen.manga_slug := dq.manga_slug q;
     frozen.chapter_number := dq.chapter_number q;
     frozen.started_at := dq.started_at q;
     frozen.minutes_elapsed := minutes_elapsed clock_ms q |}.

(** [WHERE oc.total_pages = 0 OR oc.total_pages IS NULL]. *)
Definition zero_pages_where (c : oc.row) : bool :=
  Sql.holds (Sql.or3 (Sql.eq3 Z.eqb (oc.total_pages c) (Some 0))
                     (Sql.is_null (oc.total_pages c))).

Definition mk_zero (c : oc.row) (m : om.row) : zero.row :=
  {| zero.manga_slug := om.manga_slug m;
     zero.chapter_id := oc.chapter_id c;
     zero.chapter_number := oc.chapter_number c;
     zero.total_pages := oc.total_pages c |}.

(** The rows the empty-chapter check returns for one chapter: one per work
    the [JOIN] pairs with it. *)
Definition zero_pages_rows_of (oms : list om.row) (c : oc.row) : list zero.row :=
  if zero_pages_where c then map (mk_zero c) (filter (owned_by c) oms) else [].

Definition mk_chapter_listing (c : oc.row) (m : om.row) : chapter_listing.row :=
  {| chapter_listing.id := oc.id c;
     chapter_listing.manga_slug := om.manga_slug m;
     chapter_listing.chapter_id := oc.chapter_id c;
     chapter_listing.chapter_number := oc.chapter_number c;
     chapter_listing.chapter_title := oc.chapter_title c;
     chapter_listing.total_pages := oc.total_pages c;
     chapter_listing.downloaded_at := oc.downloaded_at c;
     chapter_listing.size_bytes := oc.size_bytes c |}.

Definition status_is (s : string) (q : dq.row) : bool := String.eqb (dq.status q) s.

Section Statements.

Context {engine : SqlEngine}.

(** [SELECT name FROM sqlite_master WHERE type='table' AND name LIKE
    'offline%' OR name LIKE 'download%' ORDER BY name]; [AND] binds tighter
    than [OR]. *)
Definition select_tables (db : Database) : result (list string) :=
  Ok (order_by String.leb
        (map master.name
           (filter (fun r =>
                      (String.eqb (master.type r) "table"
                       && Sql.like_prefix "offline" (master.name r))
                      || Sql.like_prefix "download" (master.name r))
                   (sqlite_master db)))).

(** [SELECT ... FROM offline_manga ORDER BY downloaded_at DESC]. *)
Definition select_offline_manga (db : Database) : result (list om.row) :=
  let* oms := from_table "offline_manga" (offline_manga db) in
  Ok (order_by by_downloaded_desc oms).

(** [SELECT ... FROM offline_chapters oc JOIN offline_manga om ON
    oc.offline_manga_id = om.id ORDER BY om.manga_slug, oc.chapter_number]. *)
Definition select_offline_chapters (db : Database)
  : result (list chapter_listing.row) :=
  let* ocs := from_table "offline_chapters" (offline_chapters db) in
  let* oms := from_table "offline_manga" (offline_manga db) in
  Ok (order_by by_slug_number
        (flat_map (fun c => map (mk_chapter_listing c) (filter (owned_by c) oms)) ocs)).

(** [SELECT ... FROM download_queue ORDER BY priority DESC, queued_at ASC]. *)
Definition select_download_queue (db : Database) : result (list dq.row) :=
  let* dqs := from_table "download_queue" (download_queue db) in
  Ok (order_by by_priority_desc_queued_asc dqs).

End Statements.

(** [SELECT COUNT( * ) as count FROM offline_manga] and its siblings. *)
Definition count_offline_manga (db : Database) : result Z :=
  let* oms := from_table "offline_manga" (offline_manga db) in
  Ok (Sql.count oms).

Definition count_offline_chapters (db : Database) : result Z :=
  let* ocs := from_table "offline_chapters" (offline_chapters db) in
  Ok (Sql.count ocs).

Definition count_download_queue (status : string) (db : Database) : result Z :=
  let* dqs := from_table "download_queue" (download_queue db) in
  Ok (Sql.count (filter (status_is status) dqs)).

(** [SELECT SUM(total_size_bytes) as size FROM offline_manga]. *)
Definition sum_total_size_bytes (db : Database) : result (option Z) :=
  let* oms := from_table "offline_manga" (offline_manga db) in
  Sql.sum (map (fun m => Some (om.total_size_bytes m)) oms).

(** The duplicate check's statement. *)
Definition select_duplicate_queue (db : Database) : result (list dup.row) :=
  let* dqs := from_table "download_queue" (download_queue db) in
  let* oms := from_table "offline_manga" (offline_manga db) in
  let* ocs := from_table "offline_chapters" (offline_chapters db) in
  Ok (flat_map (duplicate_rows_of oms ocs) dqs).

(** The frozen-download check's statement. *)
Definition select_frozen (clock_ms : Z) (db : Database) : result (list frozen.row) :=
  let* dqs := from_table "download_queue" (download_queue db) in
  Ok (map (mk_frozen clock_ms) (filter (frozen_where clock_ms) dqs)).

(** The empty-chapter check's statement. *)
Definition select_zero_pages (db : Database) : result (list zero.row) :=
  let* ocs := from_table "offline_chapters" (offline_chapters db) in
  let* oms := from_table "offline_manga" (offline_manga db) in
  Ok (flat_map (zero_pages_rows_of oms) ocs).

(* ================================================================== *)
(** ** The process: file, clock, connection, standard output *)

(** One interpolated part of a printed line.  The text a number or a date
    is rendered to is not modelled; the part records the value and the
    format that was asked for. *)
Inductive piece : Type :=
| Lit (s : string)             (* literal text *)
| Str (s : string)             (* a [str] *)
| OptStr (s : option string)   (* a [str] or [None] *)
| Int (n : Z)                  (* an [int] *)
| OptInt (n : option Z)        (* an [int] or [None] *)
| Num (q : Q)                  (* a number *)
| OptNum (q : option Q)        (* a number or [None] *)
| Thousands (n : Z)            (* [{n:,}] *)
| Fixed (digits : nat) (q : Q) (* [{x:.1f}], [{x:.2f}] *)
| Timestamp (ts : option Z).   (* [format_timestamp(ts)] *)

Definition line : Type := list piece.

Inductive conn_state : Type :=
| NotConnected
| Connected
| Closed.

Record World : Type := {
  db_file : option Database;   (* [None]: [DB_PATH] does not exist *)
  clock_ms : Z;                (* the current time, epoch milliseconds *)
  conn : conn_state;
  stdout : list line
}.

Definition set_conn (c : conn_state) (w : World) : World :=
  {| db_file := db_file w; clock_ms := clock_ms w; conn := c; stdout := stdout w |}.

Definition set_db (d : Database) (w : World) : World :=
  {| db_file := Some d; clock_ms := clock_ms w; conn := conn w; stdout := stdout w |}.

Definition add_line (l : line) (w : World) : World :=
  {| db_file := db_file w; clock_ms := clock_ms w; conn := conn w;
     stdout := stdout w ++ [l] |}.

(** A computation of the script: it may raise, and the world it leaves
    behind is there in both cases. *)
Definition M (A : Type) : Type := World -> result A * World.

Definition ret {A} (a : A) : M A := fun w => (Ok a, w).

Definition bind {A B} (m : M A) (k : A -> M B) : M B :=
  fun w =>
    match m w with
    | (Ok a, w') => k a w'
    | (Raise e, w') => (Raise e, w')
    end.

Definition raise {A} (e : exn) : M A := fun w => (Raise e, w).

(** Lifting of a fallible pure step. *)
Definition lift {A} (r : result A) : M A := fun w => (r, w).

Notation "x <- m ;; k" := (bind m (fun x => k))
  (at level 61, m at next level, right associativity).
Notation "m ;; k" := (bind m (fun _ => k))
  (at level 61, right associativity).

Definition print (l : line) : M unit := fun w => (Ok tt, add_line l w).

Fixpoint for_each {A} (xs : list A) (body : A -> M unit) : M unit :=
  match xs with
  | [] => ret tt
  | x :: r => body x ;; for_each r body
  end.

(** [if c: body]. *)
Definition when (c : bool) (body : M unit) : M unit :=
  if c then body else ret tt.

(** A statement handed to [cursor.execute]: a query reads the database (and
    the clock), anything else may rewrite it. *)
Inductive statement : Type -> Type :=
| Select {A : Type} (q : Z -> Database -> result A) : statement A
| Change (f : Database -> result Database) : statement unit.

Definition execute {A} (s : statement A) : M A :=
  fun w =>
    match db_file w with
    | None => (Raise (OperationalError "unable to open database file"), w)
    | Some d =>
        match s in statement T return result T * World with
        | Select q => (q (clock_ms w) d, w)
        | Change f =>
            match f d with
            | Ok d' => (Ok tt, set_db d' w)
            | Raise e => (Raise e, w)
            end
        end
    end.

(** A statement that does not look at the clock. *)
Definition query {A} (q : Database -> result A) : statement A :=
  Select (fun _ => q).

(** [connect_db]. *)
Definition connect_db : M unit :=
  fun w =>
    match db_file w with
    | None =>
        (print [Lit "❌ Database not found at: "; Lit "DB_PATH"] ;;
         raise (SystemExit 1)) w
    | Some _ => (Ok tt, set_conn Connected w)
    end.

(** [conn.close()]. *)
Definition conn_close : M unit := fun w => (Ok tt, set_conn Closed w).

(** ["=" * 80]. *)
Definition rule : line := [Lit (String.concat "" (repeat "=" 80))].

Definition blank : line := [].

(** A line feed, for the lines that start with one. *)
Definition nl : string := String (ascii_of_nat 10) EmptyString.

(* ================================================================== *)
(** ** The script *)

(** The glyph of a status: a dictionary lookup with a default. *)
Definition status_emoji (status : string) : string :=
  if String.eqb status "queued" then "⏳"
  else if String.eqb status "downloading" then "⬇️"
  else if String.eqb status "completed" then "✅"
  else if String.eqb status "failed" then "❌"
  else "❓".

(** The percentage shown for an entry that is downloading. *)
Definition progress_pct (item : dq.row) : result Q :=
  if Py.truthy_int (dq.progress_total item) && Py.gt_int (dq.progress_total item) 0
  then
    let* ratio := Py.truediv (dq.progress_current item) (dq.progress_total item) in
    Ok (ratio * 100)%Q
  else Ok 0%Q.

(** The body of the queue loop of [inspect_database]. *)
Definition print_queue_item (item : dq.row) : M unit :=
  print [Lit nl; Lit "   "; Str (status_emoji (dq.status item));
         Lit " Queue ID: "; Int (dq.id item);
         Lit " | Status: "; Str (Py.upper (dq.status item))] ;;
  print [Lit "      Manga: "; Str (dq.manga_slug item)] ;;
  (if Py.truthy_str (dq.chapter_id item) then
     print [Lit "      Chapter: Ch "; OptNum (dq.chapter_number item); Lit " - ";
            Str (Py.or_str (dq.chapter_title item) "Untitled")] ;;
     print [Lit "      Chapter ID: "; OptStr (dq.chapter_id item)]
   else
     print [Lit "      Type: FULL MANGA DOWNLOAD"]) ;;
  print [Lit "      Priority: "; Int (dq.priority item)] ;;
  print [Lit "      Queued: "; Timestamp (Some (dq.queued_at item))] ;;
  when (Py.truthy_int (dq.started_at item))
       (print [Lit "      Started: "; Timestamp (dq.started_at item)]) ;;
  when (String.eqb (dq.status item) "downloading")
       (progress_pct <- lift (progress_pct item) ;;
        print [Lit "      Progress: "; Int (dq.progress_current item); Lit "/";
               OptInt (dq.progress_total item); Lit " ("; Fixed 1 progress_pct;
               Lit "%)"]) ;;
  when (Py.truthy_str (dq.error_message item))
       (print [Lit "      ❌ Error: "; OptStr (dq.error_message item)]).

(** The body of the manga loop. *)
Definition print_manga (manga : om.row) : M unit :=
  print [Lit nl; Lit "   Manga ID: "; Int (om.id manga)] ;;
  print [Lit "   Extension: "; Str (om.extension_id manga)] ;;
  print [Lit "   Manga ID: "; Str (om.manga_id manga)] ;;
  print [Lit "   Slug: "; Str (om.manga_slug manga)] ;;
  print [Lit "   Downloaded: "; Timestamp (Some (om.downloaded_at manga))] ;;
  print [Lit "   Last Updated: "; Timestamp (om.last_updated_at manga)] ;;
  print [Lit "   Size: "; Thousands (om.total_size_bytes manga); Lit " bytes"].

(** The chapter loop, with its [current_manga] variable. *)
Fixpoint print_chapters (current_manga : option string)
                        (chapters : list chapter_listing.row) : M unit :=
  match chapters with
  | [] => ret tt
  | chapter :: rest =>
      let slug := chapter_listing.manga_slug chapter in
      let changed :=
        match current_manga with
        | None => true
        | Some s => negb (String.eqb s slug)
        end in
      when changed (print [Lit nl; Lit "   📖 "; Str slug]) ;;
      print [Lit "      Ch "; Num (chapter_listing.chapter_number chapter); Lit ": ";
             Str (Py.or_str (chapter_listing.chapter_title chapter) "Untitled")] ;;
      print [Lit "         ID: "; Str (chapter_listing.chapter_id chapter)] ;;
      print [Lit "         Pages: "; OptInt (chapter_listing.total_pages chapter)] ;;
      print [Lit "         Size: "; Thousands (chapter_listing.size_bytes chapter);
             Lit " bytes"] ;;
      print [Lit "         Downloaded: ";
             Timestamp (Some (chapter_listing.downloaded_at chapter))] ;;
      print_chapters (if changed then Some slug else current_manga) rest
  end.

Definition print_duplicate (d : dup.row) : M unit :=
  print [Lit "      - Queue ID "; Int (dup.queue_id d); Lit ": ";
         Str (dup.manga_slug d); Lit " Ch "; OptNum (dup.chapter_number d)] ;;
  print [Lit "        Chapter ID: "; OptStr (dup.chapter_id d)] ;;
  print [Lit "        Queue Status: "; Str (dup.queue_status d)].

Definition print_frozen (item : frozen.row) : M unit :=
  print [Lit "      - Queue ID "; Int (frozen.id item); Lit ": ";
         Str (frozen.manga_slug item); Lit " Ch ";
         OptNum (frozen.chapter_number item)] ;;
  minutes <- lift (Py.format_fixed (frozen.minutes_elapsed item)) ;;
  print [Lit "        Stuck for: "; Fixed 1 minutes; Lit " minutes"].

Definition print_zero_pages (item : zero.row) : M unit :=
  print [Lit "      - "; Str (zero.manga_slug item); Lit " Ch ";
         Num (zero.chapter_number item)] ;;
  print [Lit "        Chapter ID: "; Str (zero.chapter_id item)].

(** The three "nothing found" lines. *)
Definition no_duplicates : line :=
  [Lit "   ✅ No chapters in queue that are already downloaded"].
Definition no_frozen : line := [Lit "   ✅ No frozen downloads detected"].
Definition all_have_pages : line := [Lit "   ✅ All downloaded chapters have pages"].

Definition is_empty {A} (l : list A) : bool :=
  match l with
  | [] => true
  | _ :: _ => false
  end.

Section Script.

Context {engine : SqlEngine}.

(** 1. OFFLINE MANGA *)
Definition section_offline_manga : M unit :=
  print rule ;; print [Lit "1. OFFLINE MANGA"] ;; print rule ;;
  manga_list <- execute (query select_offline_manga) ;;
  (if is_empty manga_list then print [Lit "   No manga downloaded"]
   else for_each manga_list print_manga) ;;
  print blank.

(** 2. OFFLINE CHAPTERS *)
Definition section_offline_chapters : M unit :=
  print rule ;; print [Lit "2. OFFLINE CHAPTERS"] ;; print rule ;;
  chapters <- execute (query select_offline_chapters) ;;
  (if is_empty chapters then print [Lit "   No chapters downloaded"]
   else print_chapters None chapters) ;;
  print blank.

(** 3. DOWNLOAD QUEUE *)
Definition section_download_queue : M unit :=
  print rule ;; print [Lit "3. DOWNLOAD QUEUE (Active/Pending)"] ;; print rule ;;
  queue <- execute (query select_download_queue) ;;
  (if is_empty queue then print [Lit "   Queue is empty"]
   else for_each queue print_queue_item) ;;
  print blank.

End Script.

(** 4. STATISTICS *)
Definition section_statistics : M unit :=
  print rule ;; print [Lit "4. STATISTICS"] ;; print rule ;;
  manga_count <- execute (query count_offline_manga) ;;
  chapter_count <- execute (query count_offline_chapters) ;;
  queued_count <- execute (query (count_download_queue "queued")) ;;
  downloading_count <- execute (query (count_download_queue "downloading")) ;;
  failed_count <- execute (query (count_download_queue "failed")) ;;
  size <- execute (query sum_total_size_bytes) ;;
  let total_size := Py.or_int size 0 in
  print [Lit nl; Lit "   Downloaded Manga: "; Int manga_count] ;;
  print [Lit "   Downloaded Chapters: "; Int chapter_count] ;;
  print [Lit "   Total Size: "; Thousands total_size; Lit " bytes (";
         Fixed 2 (inject_Z total_size / inject_Z (1024 * 1024))%Q; Lit " MB)"] ;;
  print [Lit "   Queue - Queued: "; Int queued_count] ;;
  print [Lit "   Queue - Downloading: "; Int downloading_count] ;;
  print [Lit "   Queue - Failed: "; Int failed_count] ;;
  print blank.

(** 5. POTENTIAL ISSUES DETECTION *)
Definition check_duplicate_queue : M unit :=
  duplicate_queue <- execute (query select_duplicate_queue) ;;
  (if is_empty duplicate_queue then print no_duplicates
   else
     print [Lit "   ⚠️  CHAPTERS IN QUEUE THAT ARE ALREADY DOWNLOADED:"] ;;
     for_each duplicate_queue print_duplicate) ;;
  print blank.

Definition check_frozen : M unit :=
  frozen <- execute (Select select_frozen) ;;
  (if is_empty frozen then print no_frozen
   else
     print [Lit "   ⚠️  FROZEN DOWNLOADS (stuck in 'downloading' for > 1 hour):"] ;;
     for_each frozen print_frozen) ;;
  print blank.

Definition check_zero_pages : M unit :=
  zero_pages <- execute (query select_zero_pages) ;;
  (if is_empty zero_pages then print all_have_pages
   else
     print [Lit "   ⚠️  CHAPTERS WITH ZERO PAGES (possibly corrupted):"] ;;
     for_each zero_pages print_zero_pages) ;;
  print blank.

Definition section_issues : M unit :=
  print rule ;; print [Lit "5. POTENTIAL ISSUES DETECTION"] ;; print rule ;;
  print blank ;;
  check_duplicate_queue ;;
  check_frozen ;;
  check_zero_pages.

(** The statements of [check_specific_manga]; [fetchone] takes the first
    row, or [None]. *)
Definition select_manga (extension_id manga_id : string) (db : Database)
  : result (option om.row) :=
  let* oms := from_table "offline_manga" (offline_manga db) in
  Ok (hd_error
        (filter (fun m => String.eqb (om.extension_id m) extension_id
                          && String.eqb (om.manga_id m) manga_id) oms)).

Definition queue_of (extension_id manga_id : string) (q : dq.row) : bool :=
  String.eqb (dq.extension_id q) extension_id && String.eqb (dq.manga_id q) manga_id.

(** The body of the queue loop of [check_specific_manga]. *)
Definition print_queue_brief (item : dq.row) : M unit :=
  let chapter_info :=
    if Py.truthy_str (dq.chapter_id item)
    then [Lit "Ch "; OptNum (dq.chapter_number item)]
    else [Lit "FULL MANGA"] in
  print ([Lit "   "; Str (status_emoji (dq.status item)); Lit " "]
         ++ chapter_info ++ [Lit ": "; Str (dq.status item)])%list ;;
  when (Py.truthy_str (dq.error_message item))
       (print [Lit "      Error: "; OptStr (dq.error_message item)]).

Definition print_chapter_brief (ch : oc.row) : M unit :=
  print [Lit "   - Ch "; Num (oc.chapter_number ch); Lit ": ";
         Str (Py.or_str (oc.chapter_title ch) "Untitled"); Lit " (";
         OptInt (oc.total_pages ch); Lit " pages)"] ;;
  print [Lit "     ID: "; Str (oc.chapter_id ch)].

Section EntryPoints.

Context {engine : SqlEngine}.

(** [SELECT * FROM offline_chapters WHERE offline_manga_id = ?
    ORDER BY chapter_number]. *)
Definition select_chapters_of (manga_row_id : Z) (db : Database)
  : result (list oc.row) :=
  let* ocs := from_table "offline_chapters" (offline_chapters db) in
  Ok (order_by by_number
        (filter (fun c => oc.offline_manga_id c =? manga_row_id) ocs)).

(** [SELECT * FROM download_queue WHERE extension_id = ? AND manga_id = ?
    ORDER BY priority DESC, queued_at ASC]. *)
Definition select_queue_of (extension_id manga_id : string) (db : Database)
  : result (list dq.row) :=
  let* dqs := from_table "download_queue" (download_queue db) in
  Ok (order_by by_priority_desc_queued_asc
        (filter (queue_of extension_id manga_id) dqs)).

Definition inspect_database : M unit :=
  connect_db ;;
  print rule ;; print [Lit "OFFLINE STORAGE DATABASE INSPECTION"] ;; print rule ;;
  print blank ;;
  tables <- execute (query select_tables) ;;
  if is_empty tables then
    print [Lit "❌ No offline storage tables found!"] ;;
    conn_close
  else
    print [Lit "📋 Available tables:"] ;;
    for_each tables (fun table => print [Lit "   - "; Str table]) ;;
    print blank ;;
    section_offline_manga ;;
    section_offline_chapters ;;
    section_download_queue ;;
    section_statistics ;;
    section_issues ;;
    print rule ;;
    conn_close.

Definition check_specific_manga (manga_id extension_id : string) : M unit :=
  connect_db ;;
  print rule ;; print [Lit "SPECIFIC MANGA CHECK: "; Str manga_id] ;; print rule ;;
  print blank ;;
  manga <- execute (query (select_manga extension_id manga_id)) ;;
  match manga with
  | None =>
      print [Lit "❌ Manga "; Str manga_id; Lit " not found in offline_manga table"] ;;
      print [Lit "   This manga has no downloaded chapters."] ;;
      conn_close
  | Some manga =>
      print [Lit "✅ Manga found in database:"] ;;
      print [Lit "   DB ID: "; Int (om.id manga)] ;;
      print [Lit "   Slug: "; Str (om.manga_slug manga)] ;;
      print [Lit "   Total Size: "; Thousands (om.total_size_bytes manga);
             Lit " bytes"] ;;
      print blank ;;
      chapters <- execute (query (select_chapters_of (om.id manga))) ;;
      print [Lit "Downloaded Chapters: "; Int (Z.of_nat (List.length chapters))] ;;
      when (negb (is_empty chapters)) (for_each chapters print_chapter_brief) ;;
      print blank ;;
      queue_items <- execute (query (select_queue_of extension_id manga_id)) ;;
      print [Lit "Queue Items: "; Int (Z.of_nat (List.length queue_items))] ;;
      when (negb (is_empty queue_items)) (for_each queue_items print_queue_brief) ;;
      conn_close
  end.

(** The entry point, from [sys.argv]. *)
Definition main (argv : list string) : M unit :=
  match argv with
  | _ :: manga_id :: rest =>
      let extension_id :=
        match rest with
        | e :: _ => e
        | [] => "com.weebcentral.manga"
        end in
      check_specific_manga manga_id extension_id
  | _ => inspect_database
  end.

End EntryPoints.

(** A fresh process over a catalogue file. *)
Definition start (file : option Database) (now : Z) : World :=
  {| db_file := file; clock_ms := now; conn := NotConnected; stdout := [] |}.

(* ================================================================== *)
(** ** [format_timestamp] *)

(** [try: body except: handler], with a bare [except]. *)
Definition try_except {A} (body handler : result A) : result A :=
  match body with
  | Ok a => Ok a
  | Raise _ => handler
  end.

(** [str(n)] on an integer. *)
Definition str_int (n : Z) : string := NilZero.string_of_int (Z.to_int n).

(** [format_timestamp(ts)].  [strftime_local x] stands for
    [datetime.fromtimestamp(x).strftime("%Y-%m-%d %H:%M:%S")], which depends
    on the time zone of the machine and raises on a time out of range. *)
Definition format_timestamp (strftime_local : Q -> result string)
           (ts : option Z) : result string :=
  match ts with
  | None => Ok "N/A"
  | Some t =>
      try_except (strftime_local (inject_Z t / inject_Z 1000)%Q) (Ok (str_int t))
  end.

(* ================================================================== *)
(** ** The vocabulary of the properties *)

(** [m] leaves the component [proj] of the world as it found it, whether
    it returns or raises. *)
Definition preserves {X A} (proj : World -> X) (m : M A) : Prop :=
  forall w, proj (snd (m w)) = proj w.

(** From a connected world, [m] ends closed when it returns and still
    connected when it raises. *)
Definition closes_on_return {A} (m : M A) : Prop :=
  forall w, conn w = Connected ->
    match m w with
    | (Ok _, w') => conn w' = Closed
    | (Raise _, w') => conn w' = Connected
    end.

(** Over the file [d], [m] returns (it does not raise). *)
Definition returns {A} (d : option Database) (m : M A) : Prop :=
  forall w, db_file w = d -> exists a, fst (m w) = Ok a.

(** [m] returns, and what was printed before it is still there after. *)
Definition passes {A} (m : M A) : Prop :=
  forall w, exists a w',
    m w = (Ok a, w') /\ forall l, In l (stdout w) -> In l (stdout w').

(** [m] returns, and has printed the line [l] when it does. *)
Definition emits {A} (l : line) (m : M A) : Prop :=
  forall w, exists a w', m w = (Ok a, w') /\ In l (stdout w').

(** In the words of the design: the entry names a chapter, a downloaded
    work has its [(extension_id, manga_id)], and a chapter owned by that
    work has its [chapter_id]. *)
Definition already_downloaded (oms : list om.row) (ocs : list oc.row)
           (q : dq.row) : Prop :=
  exists cid m c,
    dq.chapter_id q = Some cid
    /\ In m oms
    /\ om.extension_id m = dq.extension_id q
    /\ om.manga_id m = dq.manga_id q
    /\ In c ocs
    /\ oc.offline_manga_id c = om.id m
    /\ oc.chapter_id c = cid.

(** Modelled from the spec: the keys of the two tables, which the missing
    [CREATE TABLE] statements would declare.  The data model has
    [(extension_id, manga_id)] unique among works and one row per
    downloaded chapter of a work. *)
Definition work_key (m : om.row) : string * string :=
  (om.extension_id m, om.manga_id m).

Definition chapter_key (c : oc.row) : Z * string :=
  (oc.offline_manga_id c, oc.chapter_id c).

(** In the words of the design: higher priority first, and within a
    priority the entry queued earlier first. *)
Definition queue_order (a b : dq.row) : Prop :=
  dq.priority a > dq.priority b
  \/ (dq.priority a = dq.priority b /\ dq.queued_at a <= dq.queued_at b).

(** The two sort keys of an entry. *)
Definition queue_key (q : dq.row) : Z * Z := (dq.priority q, dq.queued_at q).

Definition known_statuses : list string :=
  ["queued"; "downloading"; "completed"; "failed"].

(** The line that shows the progress of an entry. *)
Definition progress_line (item : dq.row) (pct : Q) : line :=
  [Lit "      Progress: "; Int (dq.progress_current item); Lit "/";
   OptInt (dq.progress_total item); Lit " ("; Fixed 1 pct; Lit "%)"].

(** The first line of an entry of the queue listing, with its glyph. *)
Definition queue_head_line (item : dq.row) (glyph : string) : line :=
  [Lit nl; Lit "   "; Str glyph; Lit " Queue ID: "; Int (dq.id item);
   Lit " | Status: "; Str (Py.upper (dq.status item))].

(** The line of an entry in the single-work lookup, with its glyph. *)
Definition queue_brief_line (item : dq.row) (glyph : string) : line :=
  ([Lit "   "; Str glyph; Lit " "]
   ++ (if Py.truthy_str (dq.chapter_id item)
       then [Lit "Ch "; OptNum (dq.chapter_number item)]
       else [Lit "FULL MANGA"])
   ++ [Lit ": "; Str (dq.status item)])%list.

(** The world after printing some lines. *)
Definition add_lines (ls : list line) (w : World) : World :=
  fold_left (fun w l => add_line l w) ls w.

(** What the statistics section prints for given figures. *)
Definition statistics_lines (manga_count chapter_count total_size
                             queued_count downloading_count failed_count : Z)
  : list line :=
  [ rule; [Lit "4. STATISTICS"]; rule;
    [Lit nl; Lit "   Downloaded Manga: "; Int manga_count];
    [Lit "   Downloaded Chapters: "; Int chapter_count];
    [Lit "   Total Size: "; Thousands total_size; Lit " bytes (";
     Fixed 2 (inject_Z total_size / inject_Z (1024 * 1024))%Q; Lit " MB)"];
    [Lit "   Queue - Queued: "; Int queued_count];
    [Lit "   Queue - Downloading: "; Int downloading_count];
    [Lit "   Queue - Failed: "; Int failed_count];
    blank ].

(** What the issues section prints when the three checks find nothing. *)
Definition clean_issues_lines : list line :=
  [ rule; [Lit "5. POTENTIAL ISSUES DETECTION"]; rule; blank;
    no_duplicates; blank;
    no_frozen; blank;
    all_have_pages; blank ].

(** What the not-found message of [connect_db] prints. *)
Definition database_not_found : line :=
  [Lit "❌ Database not found at: "; Lit "DB_PATH"].

(** The condition of the tables statement on a row of [sqlite_master]. *)
Definition is_storage_object (r : master.row) : bool :=
  (String.eqb (master.type r) "table" && Sql.like_prefix "offline" (master.name r))
  || Sql.like_prefix "download" (master.name r).

(** What [inspect_database] prints when it finds no table. *)
Definition no_tables_lines : list line :=
  [ rule; [Lit "OFFLINE STORAGE DATABASE INSPECTION"]; rule; blank;
    [Lit "❌ No offline storage tables found!"] ].

(** What [check_specific_manga] prints when the work is not there. *)
Definition not_found_lines (manga_id : string) : list line :=
  [ rule; [Lit "SPECIFIC MANGA CHECK: "; Str manga_id]; rule; blank;
    [Lit "❌ Manga "; Str manga_id; Lit " not found in offline_manga table"];
    [Lit "   This manga has no downloaded chapters."] ].

(** The sum of a list of integers. *)
Definition zsum (l : list Z) : Z := fold_right Z.add 0 l.

(** The statuses the statistics count. *)
Definition counted_statuses : list string := ["queued"; "downloading"; "failed"].

(** The chapter row points at a work row of the table. *)
Definition has_owner (oms : list om.row) (c : oc.row) : bool :=
  existsb (owned_by c) oms.

(** The same entry with other progress counters. *)
Definition with_progress (progress_current : Z) (progress_total : option Z)
           (q : dq.row) : dq.row :=
  {| dq.id := dq.id q; dq.extension_id := dq.extension_id q;
     dq.manga_id := dq.manga_id q; dq.manga_slug := dq.manga_slug q;
     dq.chapter_id := dq.chapter_id q; dq.chapter_number := dq.chapter_number q;
     dq.chapter_title := dq.chapter_title q; dq.status := dq.status q;
     dq.priority := dq.priority q; dq.queued_at := dq.queued_at q;
     dq.started_at := dq.started_at q; dq.completed_at := dq.completed_at q;
     dq.error_message := dq.error_message q;
     dq.progress_current := progress_current;
     dq.progress_total := progress_total |}.

(** The order of the joined chapter listing, in words: by the slug of the
    work (as byte strings), then by chapter number. *)
Definition slug_number_order (a b : chapter_listing.row) : Prop :=
  String_as_OT.lt (chapter_listing.manga_slug a) (chapter_listing.manga_slug b)
  \/ (chapter_listing.manga_slug a = chapter_listing.manga_slug b
      /\ (chapter_listing.chapter_number a <= chapter_listing.chapter_number b)%Q).

(** The heading line of a work in the chapter listing. *)
Definition heading_line (slug : string) : line :=
  [Lit nl; Lit "   📖 "; Str slug].

(** The five lines of a chapter in the chapter listing. *)
Definition chapter_lines (chapter : chapter_listing.row) : list line :=
  [ [Lit "      Ch "; Num (chapter_listing.chapter_number chapter); Lit ": ";
     Str (Py.or_str (chapter_listing.chapter_title chapter) "Untitled")];
    [Lit "         ID: "; Str (chapter_listing.chapter_id chapter)];
    [Lit "         Pages: "; OptInt (chapter_listing.total_pages chapter)];
    [Lit "         Size: "; Thousands (chapter_listing.size_bytes chapter);
     Lit " bytes"];
    [Lit "         Downloaded: ";
     Timestamp (Some (chapter_listing.downloaded_at chapter))] ].

(** [current_manga == slug]. *)
Definition is_current (current_manga : option string) (slug : string) : bool :=
  match current_manga with
  | None => false
  | Some s => String.eqb s slug
  end.

(** What the chapter loop prints. *)
Fixpoint chapters_output (current_manga : option string)
                         (chapters : list chapter_listing.row) : list line :=
  match chapters with
  | [] => []
  | chapter :: rest =>
      let slug := chapter_listing.manga_slug chapter in
      ((if is_current current_manga slug then [] else [heading_line slug])
       ++ chapter_lines chapter
       ++ chapters_output (Some slug) rest)%list
  end.

(** Whether a printed line is the heading of the work [slug]. *)
Definition is_heading_of (slug : string) (l : line) : bool :=
  match l with
  | [Lit a; Lit b; Str s] =>
      String.eqb a nl && String.eqb b "   📖 " && String.eqb s slug
  | _ => false
  end.

(** What the chapters section prints for the rows of its statement. *)
Definition chapters_section_lines (chapters : list chapter_listing.row)
  : list line :=
  ([rule; [Lit "2. OFFLINE CHAPTERS"]; rule]
   ++ (if is_empty chapters then [[Lit "   No chapters downloaded"]]
       else chapters_output None chapters)
   ++ [blank])%list.

(** The lines of a chapter, and of a queue entry, in the single-work
    lookup. *)
Definition chapter_brief_lines (ch : oc.row) : list line :=
  [ [Lit "   - Ch "; Num (oc.chapter_number ch); Lit ": ";
     Str (Py.or_str (oc.chapter_title ch) "Untitled"); Lit " (";
     OptInt (oc.total_pages ch); Lit " pages)"];
    [Lit "     ID: "; Str (oc.chapter_id ch)] ].

Definition queue_brief_lines (item : dq.row) : list line :=
  (queue_brief_line item (status_emoji (dq.status item))
   :: (if Py.truthy_str (dq.error_message item)
       then [[Lit "      Error: "; OptStr (dq.error_message item)]]
       else []))%list.

(** What [check_specific_manga] prints for a work it finds. *)
Definition found_lines (manga_id : string) (manga : om.row)
           (chapters : list oc.row) (queue_items : list dq.row) : list line :=
  ([ rule; [Lit "SPECIFIC MANGA CHECK: "; Str manga_id]; rule; blank;
     [Lit "✅ Manga found in database:"];
     [Lit "   DB ID: "; Int (om.id manga)];
     [Lit "   Slug: "; Str (om.manga_slug manga)];
     [Lit "   Total Size: "; Thousands (om.total_size_bytes manga); Lit " bytes"];
     blank;
     [Lit "Downloaded Chapters: "; Int (Z.of_nat (List.length chapters))] ]
   ++ flat_map chapter_brief_lines chapters
   ++ [ blank;
        [Lit "Queue Items: "; Int (Z.of_nat (List.length queue_items))] ]
   ++ flat_map queue_brief_lines queue_items)%list.

(** Over the file [d], [m] returns [a] after printing the lines [ls], and
    does nothing else. *)
Definition prints {A} (d : Database) (m : M A) (a : A) (ls : list line) : Prop :=
  forall w, db_file w = Some d -> m w = (Ok a, add_lines ls w).

(** Over the file [d], [m] prints the lines [ls], closes the connection
    and returns. *)
Definition prints_and_closes (d : Database) (m : M unit) (ls : list line) : Prop :=
  forall w, db_file w = Some d -> m w = (Ok tt, set_conn Closed (add_lines ls w)).

(** An entry the statistics leave out: its status is none of the three
    that are counted. *)
Definition uncounted (q : dq.row) : bool :=
  negb (existsb (String.eqb (dq.status q)) counted_statuses).

(** The sizes of the works are non-negative and their sum is a 64-bit
    integer. *)
Definition sizes_fit (oms : list om.row) : Prop :=
  Forall (fun m => 0 <= om.total_size_bytes m) oms
  /\ zsum (map om.total_size_bytes oms) <= Sql.int64_max.

(* ================================================================== *)
(** ** Concrete stores *)

Definition sample_work : om.row :=
  {| om.id := 1; om.extension_id := "com.weebcentral.manga"; om.manga_id := "m-1";
     om.manga_slug := "one"; om.downloaded_at := 1700000000000;
     om.last_updated_at := None; om.total_size_bytes := 1048576 |}.

Definition sample_chapter : oc.row :=
  {| oc.id := 10; oc.offline_manga_id := 1; oc.chapter_id := "ch-1";
     oc.chapter_number := 1%Q; oc.chapter_title := None; oc.total_pages := Some 0;
     oc.downloaded_at := 1700000000000; oc.size_bytes := 1048576 |}.

Definition sample_entry : dq.row :=
  {| dq.id := 7; dq.extension_id := "com.weebcentral.manga"; dq.manga_id := "m-1";
     dq.manga_slug := "one"; dq.chapter_id := Some "ch-1";
     dq.chapter_number := Some 1%Q; dq.chapter_title := None;
     dq.status := "failed"; dq.priority := 0; dq.queued_at := 1700000000000;
     dq.started_at := None; dq.completed_at := None;
     dq.error_message := Some "timeout"; dq.progress_current := 0;
     dq.progress_total := Some 0 |}.

(** The same entry with another status and start time. *)
Definition with_status (status : string) (started_at : option Z) (q : dq.row)
  : dq.row :=
  {| dq.id := dq.id q; dq.extension_id := dq.extension_id q;
     dq.manga_id := dq.manga_id q; dq.manga_slug := dq.manga_slug q;
     dq.chapter_id := dq.chapter_id q; dq.chapter_number := dq.chapter_number q;
     dq.chapter_title := dq.chapter_title q; dq.status := status;
     dq.priority := dq.priority q; dq.queued_at := dq.queued_at q;
     dq.started_at := started_at; dq.completed_at := dq.completed_at q;
     dq.error_message := dq.error_message q;
     dq.progress_current := dq.progress_current q;
     dq.progress_total := dq.progress_total q |}.

Definition sample_store : Database :=
  {| offline_manga := Some [sample_work];
     offline_chapters := Some [sample_chapter];
     download_queue := Some [sample_entry];
     other_objects := [] |}.

Definition empty_store : Database :=
  {| offline_manga := Some []; offline_chapters := Some [];
     download_queue := Some []; other_objects := [] |}.

(** A catalogue in which only the queue table was created. *)
Definition queue_only_store : Database :=
  {| offline_manga := None; offline_chapters := None;
     download_queue := Some [sample_entry]; other_objects := [] |}.

(** The sample work and chapter, with a given queue. *)
Definition store_with_queue (dqs : list dq.row) : Database :=
  {| offline_manga := Some [sample_work];
     offline_chapters := Some [sample_chapter];
     download_queue := Some dqs;
     other_objects := [] |}.

(** The same chapter with another page count. *)
Definition with_total_pages (total_pages : option Z) (c : oc.row) : oc.row :=
  {| oc.id := oc.id c; oc.offline_manga_id := oc.offline_manga_id c;
     oc.chapter_id := oc.chapter_id c; oc.chapter_number := oc.chapter_number c;
     oc.chapter_title := oc.chapter_title c; oc.total_pages := total_pages;
     oc.downloaded_at := oc.downloaded_at c; oc.size_bytes := oc.size_bytes c |}.

(** A second entry for the same work, queued at the same time with the
    same priority. *)
Definition sample_entry_2 : dq.row :=
  {| dq.id := 8; dq.extension_id := "com.weebcentral.manga"; dq.manga_id := "m-1";
     dq.manga_slug := "one"; dq.chapter_id := Some "ch-2";
     dq.chapter_number := Some 2%Q; dq.chapter_title := None;
     dq.status := "queued"; dq.priority := 0; dq.queued_at := 1700000000000;
     dq.started_at := None; dq.completed_at := None;
     dq.error_message := None; dq.progress_current := 0;
     dq.progress_total := Some 0 |}.

(** Two more works, downloaded after and before the first one. *)
Definition sample_work_2 : om.row :=
  {| om.id := 2; om.extension_id := "com.weebcentral.manga"; om.manga_id := "m-2";
     om.manga_slug := "two"; om.downloaded_at := 1700000500000;
     om.last_updated_at := None; om.total_size_bytes := 2097152 |}.

Definition sample_work_3 : om.row :=
  {| om.id := 3; om.extension_id := "com.weebcentral.manga"; om.manga_id := "m-3";
     om.manga_slug := "three"; om.downloaded_at := 1699999000000;
     om.last_updated_at := None; om.total_size_bytes := 0 |}.

(** A work of 2^62 bytes. *)
Definition huge_work (id : Z) : om.row :=
  {| om.id := id; om.extension_id := "com.weebcentral.manga"; om.manga_id := "m-huge";
     om.manga_slug := "huge"; om.downloaded_at := 1700000000000;
     om.last_updated_at := None; om.total_size_bytes := 2 ^ 62 |}.

(** A chapter row. *)
Definition chapter_row (id offline_manga_id : Z) (chapter_id : string)
           (chapter_number : Q) : oc.row :=
  {| oc.id := id; oc.offline_manga_id := offline_manga_id;
     oc.chapter_id := chapter_id; oc.chapter_number := chapter_number;
     oc.chapter_title := None; oc.total_pages := Some 20;
     oc.downloaded_at := 1700000000000; oc.size_bytes := 1048576 |}.

(** Chapters 2, 1 and 1/2 of the first work and chapter 3/2 of the second,
    in the order they were stored. *)
Definition sample_chapters : list oc.row :=
  [ chapter_row 12 1 "ch-2" 2%Q;
    chapter_row 11 2 "ch-1" (3 # 2)%Q;
    sample_chapter;
    chapter_row 13 1 "ch-0" (1 # 2)%Q ].

(** A queue entry of the first work. *)
Definition queue_row (id priority queued_at : Z) (status : string)
           (started_at : option Z) : dq.row :=
  {| dq.id := id; dq.extension_id := "com.weebcentral.manga"; dq.manga_id := "m-1";
     dq.manga_slug := "one"; dq.chapter_id := Some "ch-9";
     dq.chapter_number := Some 9%Q; dq.chapter_title := None;
     dq.status := status; dq.priority := priority; dq.queued_at := queued_at;
     dq.started_at := started_at; dq.completed_at := None;
     dq.error_message := None; dq.progress_current := 3;
     dq.progress_total := Some 4 |}.

(** A queue of three entries with distinct keys, stored in an order that is
    not the listing's: priority 0, then priority 5 queued late, then
    priority 5 queued early. *)
Definition sample_queue : list dq.row :=
  [ sample_entry;
    queue_row 9 5 1700000300000 "queued" None;
    queue_row 10 5 1700000200000 "queued" None ].

(** A queue with an entry downloading for 61.5 minutes at the time
    1700003690000, one downloading for a minute, and a failed one. *)
Definition stuck_queue : list dq.row :=
  [ queue_row 20 0 1700000000000 "downloading" (Some 1700000000000);
    queue_row 21 0 1700003000000 "downloading" (Some 1700003630000);
    sample_entry ].

(** A store with three works and the four chapters. *)
Definition library_store (dqs : list dq.row) : Database :=
  {| offline_manga := Some [sample_work; sample_work_2; sample_work_3];
     offline_chapters := Some sample_chapters;
     download_queue := Some dqs;
     other_objects := [] |}.

(** A store with given works. *)
Definition store_with_works (oms : list om.row) : Database :=
  {| offline_manga := Some oms;
     offline_chapters := Some [];
     download_queue := Some [];
     other_objects := [] |}.

(* ================================================================== *)
(** ** Two engines *)

Section InsertionSort.

Variable A : Type.
Variable le : A -> A -> bool.

Lemma insert_sorted_perm (x : A) (l : list A) :
  Permutation (x :: l) (insert_sorted le x l).
Proof.
  induction l as [|y r IH]; simpl.
  - apply Permutation_refl.
  - destruct (le x y).
    + apply Permutation_refl.
    + eapply perm_trans; [apply perm_swap|].
      now apply perm_skip.
Qed.

Lemma insertion_sort_perm (l : list A) : Permutation l (insertion_sort le l).
Proof.
  induction l as [|x r IH]; simpl.
  - constructor.
  - eapply perm_trans; [apply perm_skip, IH|]. apply insert_sorted_perm.
Qed.

Hypothesis le_total : forall x y, le x y = true \/ le y x = true.
Hypothesis le_trans : forall x y z, le x y = true -> le y z = true -> le x z = true.

Lemma insert_sorted_sorted (x : A) (l : list A) :
  StronglySorted (fun a b => le a b = true) l ->
  StronglySorted (fun a b => le a b = true) (insert_sorted le x l).
Proof.
  induction 1 as [|y r Hs IH Hall]; simpl.
  - repeat constructor.
  - destruct (le x y) eqn:Hxy.
    + constructor.
      * now constructor.
      * constructor; [exact Hxy|].
        eapply Forall_impl; [|exact Hall].
        intros z Hyz. now apply le_trans with y.
    + constructor; [exact IH|].
      assert (Hyx : le y x = true) by (destruct (le_total x y); congruence).
      eapply Permutation_Forall; [apply insert_sorted_perm|].
      now constructor.
Qed.

Lemma insertion_sort_sorted (l : list A) :
  StronglySorted (fun a b => le a b = true) (insertion_sort le l).
Proof.
  induction l as [|x r IH]; simpl.
  - constructor.
  - now apply insert_sorted_sorted.
Qed.

End InsertionSort.

(** An engine that keeps rows with equal keys in table order. *)
Definition stable_engine : SqlEngine :=
  {| order_by := fun A le l => insertion_sort le l;
     order_by_perm := fun A le l => insertion_sort_perm A le l;
     order_by_sorted := fun A le l Htot Htr => insertion_sort_sorted A le Htot Htr l |}.

(** An engine that visits the table backwards before sorting, as a scan
    in descending row order does: rows with equal keys come out reversed. *)
Definition backward_engine : SqlEngine :=
  {| order_by := fun A le l => insertion_sort le (rev l);
     order_by_perm := fun A le l =>
       perm_trans (Permutation_rev l) (insertion_sort_perm A le (rev l));
     order_by_sorted := fun A le l Htot Htr =>
       insertion_sort_sorted A le Htot Htr (rev l) |}.

(* ================================================================== *)
(** ** What a computation leaves untouched *)

Section Frame.

Variable X : Type.
Variable proj : World -> X.
Hypothesis proj_add_line : forall l w, proj (add_line l w) = proj w.

Lemma preserves_ret {A} (a : A) : preserves proj (ret a).
Proof. intros w. reflexivity. Qed.

Lemma preserves_raise {A} (e : exn) : preserves proj (@raise A e).
Proof. intros w. reflexivity. Qed.

Lemma preserves_lift {A} (r : result A) : preserves proj (lift r).
Proof. intros w. reflexivity. Qed.

Lemma preserves_print (l : line) : preserves proj (print l).
Proof. intros w. apply proj_add_line. Qed.

Lemma preserves_bind {A B} (m : M A) (k : A -> M B) :
  preserves proj m -> (forall a, preserves proj (k a)) -> preserves proj (bind m k).
Proof.
  intros Hm Hk w. unfold bind.
  specialize (Hm w). destruct (m w) as [[a|e] w']; simpl in *.
  - now rewrite Hk.
  - exact Hm.
Qed.

Lemma preserves_if {A} (c : bool) (m1 m2 : M A) :
  preserves proj m1 -> preserves proj m2 -> preserves proj (if c then m1 else m2).
Proof. now destruct c. Qed.

Lemma preserves_when (c : bool) (m : M unit) :
  preserves proj m -> preserves proj (when c m).
Proof. intros Hm. destruct c; [exact Hm | apply preserves_ret]. Qed.

Lemma preserves_for_each {A} (xs : list A) (body : A -> M unit) :
  (forall x, preserves proj (body x)) -> preserves proj (for_each xs body).
Proof.
  intros Hbody. induction xs as [|x r IH]; simpl.
  - apply preserves_ret.
  - apply preserves_bind; [apply Hbody | intros _; exact IH].
Qed.

(** A [SELECT] changes nothing at all. *)
Lemma execute_select_world {A} (q : Z -> Database -> result A) (w : World) :
  snd (execute (Select q) w) = w.
Proof. unfold execute. now destruct (db_file w). Qed.

Lemma preserves_select {A} (q : Z -> Database -> result A) :
  preserves proj (execute (Select q)).
Proof. intros w. now rewrite execute_select_world. Qed.

Lemma preserves_query {A} (q : Database -> result A) :
  preserves proj (execute (query q)).
Proof. apply preserves_select. Qed.

Ltac frame :=
  repeat first
    [ apply preserves_print
    | apply preserves_ret
    | apply preserves_raise
    | apply preserves_lift
    | apply preserves_query
    | apply preserves_select
    | apply preserves_when
    | apply preserves_if
    | apply preserves_for_each; intros ?
    | apply preserves_bind; [|intros ?] ].

Lemma preserves_print_queue_item (item : dq.row) :
  preserves proj (print_queue_item item).
Proof. unfold print_queue_item. frame. Qed.

Lemma preserves_print_manga (manga : om.row) : preserves proj (print_manga manga).
Proof. unfold print_manga. frame. Qed.

Lemma preserves_print_chapters (chapters : list chapter_listing.row) :
  forall current, preserves proj (print_chapters current chapters).
Proof.
  induction chapters as [|c r IH]; intros current; simpl.
  - apply preserves_ret.
  - frame. apply IH.
Qed.

Lemma preserves_print_queue_brief (item : dq.row) :
  preserves proj (print_queue_brief item).
Proof. unfold print_queue_brief. frame. Qed.

Lemma preserves_print_chapter_brief (ch : oc.row) :
  preserves proj (print_chapter_brief ch).
Proof. unfold print_chapter_brief. frame. Qed.

Lemma preserves_section_statistics : preserves proj section_statistics.
Proof. unfold section_statistics. frame. Qed.

Lemma preserves_section_issues : preserves proj section_issues.
Proof.
  unfold section_issues, check_duplicate_queue, check_frozen, check_zero_pages,
    print_duplicate, print_frozen, print_zero_pages.
  frame.
Qed.

Context {engine : SqlEngine}.

Lemma preserves_section_offline_manga : preserves proj section_offline_manga.
Proof. unfold section_offline_manga. frame. Qed.

Lemma preserves_section_offline_chapters : preserves proj section_offline_chapters.
Proof. unfold section_offline_chapters. frame. apply preserves_print_chapters. Qed.

Lemma preserves_section_download_queue : preserves proj section_download_queue.
Proof. unfold section_download_queue. frame. Qed.

(** The two entry points, for a component that opening and closing the
    connection do not touch either. *)
Hypothesis proj_set_conn : forall c w, proj (set_conn c w) = proj w.

Lemma preserves_connect_db : preserves proj connect_db.
Proof.
  intros w. unfold connect_db. destruct (db_file w).
  - apply proj_set_conn.
  - apply proj_add_line.
Qed.

Lemma preserves_conn_close : preserves proj conn_close.
Proof. intros w. apply proj_set_conn. Qed.

Lemma preserves_inspect_database : preserves proj inspect_database.
Proof.
  unfold inspect_database.
  apply preserves_bind; [apply preserves_connect_db | intros _].
  frame; first [ apply preserves_conn_close | apply preserves_print_chapters ].
Qed.

Lemma preserves_check_specific_manga (manga_id extension_id : string) :
  preserves proj (check_specific_manga manga_id extension_id).
Proof.
  unfold check_specific_manga.
  apply preserves_bind; [apply preserves_connect_db | intros _].
  frame.
  match goal with
  | |- preserves _ (match ?manga with Some _ => _ | None => _ end) =>
      destruct manga
  end; frame; apply preserves_conn_close.
Qed.

Lemma preserves_main (argv : list string) : preserves proj (main argv).
Proof.
  unfold main. destruct argv as [|prog [|manga_id rest]].
  - apply preserves_inspect_database.
  - apply preserves_inspect_database.
  - apply preserves_check_specific_manga.
Qed.

End Frame.

(** The database file is one of the components the generic lemmas cover. *)
Lemma db_file_add_line (l : line) (w : World) : db_file (add_line l w) = db_file w.
Proof. reflexivity. Qed.

Lemma db_file_set_conn (c : conn_state) (w : World) :
  db_file (set_conn c w) = db_file w.
Proof. reflexivity. Qed.

Lemma conn_add_line (l : line) (w : World) : conn (add_line l w) = conn w.
Proof. reflexivity. Qed.

(** The property is not an artefact of the model: a statement that writes
    does change the file. *)
Example change_is_seen :
  let wipe := Change (fun d =>
                Ok {| offline_manga := offline_manga d;
                      offline_chapters := offline_chapters d;
                      download_queue := Some [];
                      other_objects := other_objects d |}) in
  forall d w, db_file w = Some d ->
    download_queue d <> Some [] ->
    db_file (snd (execute wipe w)) <> db_file w.
Proof.
  intros wipe d w Hw Hq. unfold wipe, execute. rewrite Hw. simpl.
  intros Heq. injection Heq as Heq. apply Hq. rewrite <- Heq. reflexivity.
Qed.

(* ================================================================== *)
(** ** Where the connection is closed *)

Lemma closes_conn_close : closes_on_return conn_close.
Proof. intros w _. reflexivity. Qed.

Lemma closes_bind {A B} (m : M A) (k : A -> M B) :
  preserves conn m -> (forall a, closes_on_return (k a)) ->
  closes_on_return (bind m k).
Proof.
  intros Hm Hk w Hw. unfold bind.
  specialize (Hm w). destruct (m w) as [[a|e] w']; simpl in Hm.
  - apply Hk. congruence.
  - congruence.
Qed.

Lemma closes_if {A} (c : bool) (m1 m2 : M A) :
  closes_on_return m1 -> closes_on_return m2 ->
  closes_on_return (if c then m1 else m2).
Proof. now destruct c. Qed.

Ltac keeps H :=
  first
    [ apply (preserves_print _ _ H)
    | apply preserves_ret
    | apply preserves_lift
    | apply preserves_query
    | apply preserves_select
    | apply preserves_when; keeps H
    | apply preserves_for_each; intros ?; keeps H
    | apply (preserves_section_offline_manga _ _ H)
    | apply (preserves_section_offline_chapters _ _ H)
    | apply (preserves_section_download_queue _ _ H)
    | apply (preserves_section_statistics _ _ H)
    | apply (preserves_section_issues _ _ H)
    | apply (preserves_print_manga _ _ H)
    | apply (preserves_print_chapters _ _ H)
    | apply (preserves_print_queue_item _ _ H)
    | apply (preserves_print_chapter_brief _ _ H)
    | apply (preserves_print_queue_brief _ _ H)
    | apply preserves_if; keeps H
    | apply preserves_bind; [keeps H | intros ?; keeps H] ].

Ltac closes :=
  repeat first
    [ apply closes_conn_close
    | apply closes_if
    | apply closes_bind; [keeps conn_add_line | intros ?] ].

(** [connect_db] followed by the rest of an entry point. *)
Lemma connect_db_then {A} (k : unit -> M A) (w : World) :
  bind connect_db k w =
  match db_file w with
  | Some _ => k tt (set_conn Connected w)
  | None =>
      (Raise (SystemExit 1),
       add_line [Lit "❌ Database not found at: "; Lit "DB_PATH"] w)
  end.
Proof. unfold bind, connect_db. now destruct (db_file w). Qed.

Section Closing.

Context {engine : SqlEngine}.

Lemma inspect_database_after_connect :
  exists rest : M unit,
    closes_on_return rest /\ inspect_database = bind connect_db (fun _ => rest).
Proof.
  eexists. split; [|reflexivity]. closes.
Qed.

Lemma check_specific_manga_after_connect (manga_id extension_id : string) :
  exists rest : M unit,
    closes_on_return rest
    /\ check_specific_manga manga_id extension_id = bind connect_db (fun _ => rest).
Proof.
  eexists. split; [|reflexivity]. closes.
  match goal with
  | |- closes_on_return (match ?manga with Some _ => _ | None => _ end) =>
      destruct manga
  end; closes.
Qed.

End Closing.

(* ================================================================== *)
(** ** Runs that return *)

Lemma returns_ret {A} d (a : A) : returns d (ret a).
Proof. intros w _. now exists a. Qed.

Lemma returns_print d (l : line) : returns d (print l).
Proof. intros w _. now exists tt. Qed.

Lemma returns_conn_close d : returns d conn_close.
Proof. intros w _. now exists tt. Qed.

Lemma returns_lift {A} d (r : result A) :
  (exists a, r = Ok a) -> returns d (lift r).
Proof. intros [a ->] w _. now exists a. Qed.

(** The general sequencing rule: [P] is what is known of the value [m]
    returns. *)
Lemma returns_bind_with {A B} (P : A -> Prop) d (m : M A) (k : A -> M B) :
  (forall w, db_file w = d -> exists a, fst (m w) = Ok a /\ P a) ->
  preserves db_file m ->
  (forall a, P a -> returns d (k a)) ->
  returns d (bind m k).
Proof.
  intros Hm Hkeep Hk w Hw. unfold bind.
  destruct (Hm w Hw) as [a [Ha HP]]. specialize (Hkeep w).
  destruct (m w) as [[a'|e] w']; simpl in *; [|discriminate].
  injection Ha as ->. apply (Hk a HP). congruence.
Qed.

Lemma returns_bind {A B} d (m : M A) (k : A -> M B) :
  returns d m -> preserves db_file m -> (forall a, returns d (k a)) ->
  returns d (bind m k).
Proof.
  intros Hm Hkeep Hk. apply (returns_bind_with (fun _ => True)); auto.
  intros w Hw. destruct (Hm w Hw) as [a Ha]. now exists a.
Qed.

Lemma returns_if {A} d (c : bool) (m1 m2 : M A) :
  returns d m1 -> returns d m2 -> returns d (if c then m1 else m2).
Proof. now destruct c. Qed.

Lemma returns_when d (c : bool) (m : M unit) : returns d m -> returns d (when c m).
Proof. intros Hm. destruct c; [exact Hm | apply returns_ret]. Qed.

Lemma returns_for_each {A} d (xs : list A) (body : A -> M unit) :
  (forall x, In x xs -> returns d (body x)) ->
  (forall x, preserves db_file (body x)) ->
  returns d (for_each xs body).
Proof.
  intros Hbody Hkeep. induction xs as [|x r IH]; simpl.
  - apply returns_ret.
  - apply returns_bind.
    + apply Hbody. now left.
    + apply Hkeep.
    + intros _. apply IH. intros y Hy. apply Hbody. now right.
Qed.

(** A statement over an open file yields what the statement computes. *)
Lemma execute_select_result {A} (q : Z -> Database -> result A) (d : Database) w :
  db_file w = Some d -> fst (execute (Select q) w) = q (clock_ms w) d.
Proof. intros Hw. unfold execute. now rewrite Hw. Qed.

Lemma returns_query {A} (d : Database) (q : Database -> result A) :
  (exists a, q d = Ok a) -> returns (Some d) (execute (query q)).
Proof.
  intros [a Ha] w Hw. exists a. unfold query.
  now rewrite (execute_select_result _ d w Hw).
Qed.

Ltac returns_by tac :=
  repeat first
    [ tac
    | apply returns_ret
    | apply returns_print
    | apply returns_conn_close
    | apply returns_when
    | apply returns_if
    | apply returns_for_each; [intros ? _ | intros ?; keeps db_file_add_line]
    | apply returns_bind; [ | keeps db_file_add_line | intros ?] ].

Ltac returns := returns_by fail.

(* ================================================================== *)
(** ** The rendering steps return *)

Lemma progress_pct_cases (item : dq.row) :
  progress_pct item =
  match dq.progress_total item with
  | Some t =>
      if 0 <? t
      then Ok (inject_Z (dq.progress_current item) / inject_Z t * 100)%Q
      else Ok 0%Q
  | None => Ok 0%Q
  end.
Proof.
  unfold progress_pct, Py.truthy_int, Py.gt_int, Py.truediv.
  destruct (dq.progress_total item) as [t|]; [|reflexivity].
  rewrite Z.gtb_ltb.
  destruct (Z.eqb_spec t 0) as [->|Hne]; [reflexivity|].
  simpl. destruct (0 <? t); reflexivity.
Qed.

Lemma progress_pct_ok (item : dq.row) : exists pct, progress_pct item = Ok pct.
Proof.
  rewrite progress_pct_cases.
  destruct (dq.progress_total item) as [t|]; [destruct (0 <? t)|]; eauto.
Qed.

Lemma returns_print_queue_item d (item : dq.row) : returns d (print_queue_item item).
Proof.
  unfold print_queue_item. returns.
  apply returns_lift, progress_pct_ok.
Qed.

Lemma returns_print_queue_brief d (item : dq.row) : returns d (print_queue_brief item).
Proof. unfold print_queue_brief. returns. Qed.

Lemma returns_print_manga d (manga : om.row) : returns d (print_manga manga).
Proof. unfold print_manga. returns. Qed.

Lemma returns_print_chapter_brief d (ch : oc.row) : returns d (print_chapter_brief ch).
Proof. unfold print_chapter_brief. returns. Qed.

Lemma returns_print_chapters d (chapters : list chapter_listing.row) :
  forall current, returns d (print_chapters current chapters).
Proof.
  induction chapters as [|c r IH]; intros current; simpl.
  - apply returns_ret.
  - returns. apply IH.
Qed.

Lemma returns_print_duplicate d (row : dup.row) : returns d (print_duplicate row).
Proof. unfold print_duplicate. returns. Qed.

Lemma returns_print_zero_pages d (row : zero.row) : returns d (print_zero_pages row).
Proof. unfold print_zero_pages. returns. Qed.

(** A frozen row prints as soon as its elapsed minutes are not NULL. *)
Lemma returns_print_frozen d (row : frozen.row) :
  frozen.minutes_elapsed row <> None -> returns d (print_frozen row).
Proof.
  intros Hm. unfold print_frozen. returns.
  apply returns_lift. destruct (frozen.minutes_elapsed row) as [n|]; [|easy].
  now exists (inject_Z n).
Qed.

(** The rows [frozen_where] keeps have a start time, so their elapsed
    minutes are a number. *)
Lemma frozen_where_started (now : Z) (q : dq.row) :
  frozen_where now q = true -> exists s, dq.started_at q = Some s.
Proof.
  unfold frozen_where. destruct (dq.started_at q) as [s|]; [eauto|].
  destruct (String.eqb (dq.status q) "downloading"); discriminate.
Qed.

Lemma minutes_elapsed_started (now : Z) (q : dq.row) (s : Z) :
  dq.started_at q = Some s ->
  minutes_elapsed now q =
  Some (Z.quot (Z.quot (strftime_s now * 1000 - s) 1000) 60).
Proof. intros Hs. unfold minutes_elapsed. rewrite Hs. reflexivity. Qed.

(* ================================================================== *)
(** ** [SUM] over non-negative sizes *)

Lemma in_int64_nonneg (z : Z) :
  0 <= z -> Sql.in_int64 z = (z <=? Sql.int64_max).
Proof.
  intros Hz. unfold Sql.in_int64.
  assert (Hmin : Sql.int64_min <= 0) by (vm_compute; discriminate).
  destruct (Z.leb_spec Sql.int64_min z); [reflexivity | lia].
Qed.

Lemma zsum_nonneg (sizes : list Z) :
  Forall (fun z => 0 <= z) sizes -> 0 <= zsum sizes.
Proof.
  induction 1 as [|z r Hz _ IH]; simpl; [apply Z.le_refl | lia].
Qed.

(** With non-negative values the running sum only grows, so it overflows
    exactly when the whole sum does. *)
Lemma sum_from_nonneg (sizes : list Z) :
  forall a, 0 <= a <= Sql.int64_max -> Forall (fun z => 0 <= z) sizes ->
    Sql.sum_from (Some a) (map Some sizes)
    = if a + zsum sizes <=? Sql.int64_max
      then Ok (Some (a + zsum sizes))
      else Raise (OperationalError "integer overflow").
Proof.
  induction sizes as [|v r IH]; intros a Ha Hall.
  - simpl. rewrite Z.add_0_r.
    destruct (Z.leb_spec a Sql.int64_max); [reflexivity | lia].
  - apply Forall_cons_iff in Hall. destruct Hall as [Hv Hr].
    pose proof (zsum_nonneg r Hr) as Hsum.
    cbn [map Sql.sum_from zsum fold_right].
    change (fold_right Z.add 0 r) with (zsum r).
    rewrite in_int64_nonneg by lia.
    destruct (Z.leb_spec (a + v) Sql.int64_max) as [Hfit|Hover].
    + rewrite IH by (try assumption; lia). now rewrite Z.add_assoc.
    + destruct (Z.leb_spec (a + (v + zsum r)) Sql.int64_max); [lia | reflexivity].
Qed.

Lemma sum_nonneg (sizes : list Z) :
  Forall (fun z => 0 <= z) sizes ->
  Sql.sum (map Some sizes)
  = if zsum sizes <=? Sql.int64_max
    then Ok (match sizes with [] => None | _ :: _ => Some (zsum sizes) end)
    else Raise (OperationalError "integer overflow").
Proof.
  intros Hall. destruct sizes as [|v r].
  - reflexivity.
  - apply Forall_cons_iff in Hall. destruct Hall as [Hv Hr].
    pose proof (zsum_nonneg r Hr) as Hsum.
    unfold Sql.sum. cbn [map Sql.sum_from zsum fold_right].
    change (fold_right Z.add 0 r) with (zsum r).
    rewrite in_int64_nonneg by lia.
    destruct (Z.leb_spec v Sql.int64_max) as [Hfit|Hover].
    + now rewrite sum_from_nonneg by (try assumption; lia).
    + destruct (Z.leb_spec (v + zsum r) Sql.int64_max); [lia | reflexivity].
Qed.

(** [SELECT SUM(total_size_bytes)] on a table of non-negative sizes. *)
Lemma sum_total_size_bytes_nonneg (db : Database) (oms : list om.row) :
  offline_manga db = Some oms ->
  Forall (fun m => 0 <= om.total_size_bytes m) oms ->
  sum_total_size_bytes db
  = if zsum (map om.total_size_bytes oms) <=? Sql.int64_max
    then Ok (match oms with
             | [] => None
             | _ :: _ => Some (zsum (map om.total_size_bytes oms))
             end)
    else Raise (OperationalError "integer overflow").
Proof.
  intros Hom Hall. unfold sum_total_size_bytes. rewrite Hom. simpl.
  rewrite <- (map_map om.total_size_bytes Some).
  rewrite sum_nonneg by (now apply Forall_map).
  now destruct oms.
Qed.

Lemma sum_total_size_bytes_fits (db : Database) (oms : list om.row) :
  offline_manga db = Some oms ->
  sizes_fit oms ->
  exists size, sum_total_size_bytes db = Ok size.
Proof.
  intros Hom [Hall Hfit]. rewrite (sum_total_size_bytes_nonneg db oms Hom Hall).
  destruct (Z.leb_spec (zsum (map om.total_size_bytes oms)) Sql.int64_max);
    [eauto | lia].
Qed.

(* ================================================================== *)
(** ** With the three tables in place the report completes *)

Section Completes.

Context {engine : SqlEngine}.

Variable d : Database.
Variable oms : list om.row.
Variable ocs : list oc.row.
Variable dqs : list dq.row.
Hypothesis Hom : offline_manga d = Some oms.
Hypothesis Hoc : offline_chapters d = Some ocs.
Hypothesis Hdq : download_queue d = Some dqs.
Hypothesis Hsizes : sizes_fit oms.

Ltac statement_ok :=
  apply returns_query;
  unfold select_offline_manga, select_offline_chapters, select_download_queue,
    count_offline_manga, count_offline_chapters, count_download_queue,
    sum_total_size_bytes, select_duplicate_queue, select_zero_pages,
    select_tables;
  rewrite ?Hom, ?Hoc, ?Hdq; simpl; eauto.

Lemma returns_section_offline_manga : returns (Some d) section_offline_manga.
Proof. unfold section_offline_manga. returns. statement_ok. Qed.

Lemma returns_section_offline_chapters : returns (Some d) section_offline_chapters.
Proof.
  unfold section_offline_chapters. returns.
  - statement_ok.
  - apply returns_print_chapters.
Qed.

Lemma returns_section_download_queue : returns (Some d) section_download_queue.
Proof.
  unfold section_download_queue. returns.
  - statement_ok.
  - apply returns_lift, progress_pct_ok.
Qed.

Lemma returns_section_statistics : returns (Some d) section_statistics.
Proof.
  unfold section_statistics. returns;
    first [ apply returns_query, (sum_total_size_bytes_fits d oms Hom Hsizes)
          | statement_ok ].
Qed.

Lemma returns_check_frozen : returns (Some d) check_frozen.
Proof.
  unfold check_frozen.
  apply (returns_bind_with
           (fun rows => forall r, In r rows -> frozen.minutes_elapsed r <> None)).
  - intros w Hw. rewrite (execute_select_result _ d w Hw).
    unfold select_frozen. rewrite Hdq. simpl. eexists. split; [reflexivity|].
    intros r Hr. apply in_map_iff in Hr. destruct Hr as [q [<- Hq]].
    apply filter_In in Hq. destruct Hq as [_ Hq].
    destruct (frozen_where_started _ _ Hq) as [s Hs]. simpl.
    rewrite (minutes_elapsed_started _ _ _ Hs). discriminate.
  - apply preserves_select.
  - intros rows Hrows.
    apply returns_bind; [ | unfold print_frozen; keeps db_file_add_line | intros _ ].
    + apply returns_if; [apply returns_print|].
      apply returns_bind; [apply returns_print | keeps db_file_add_line | intros _].
      apply returns_for_each.
      * intros r Hr. apply returns_print_frozen. now apply Hrows.
      * intros r. unfold print_frozen. keeps db_file_add_line.
    + apply returns_print.
Qed.

Lemma returns_section_issues : returns (Some d) section_issues.
Proof.
  unfold section_issues.
  returns_by ltac:(apply returns_check_frozen); statement_ok.
Qed.

End Completes.

Lemma returns_connect_db (d : Database) : returns (Some d) connect_db.
Proof. intros w Hw. exists tt. unfold connect_db. now rewrite Hw. Qed.

Lemma returns_inspect_database {engine : SqlEngine} (d : Database)
      (oms : list om.row) (ocs : list oc.row) (dqs : list dq.row) :
  offline_manga d = Some oms ->
  offline_chapters d = Some ocs ->
  download_queue d = Some dqs ->
  sizes_fit oms ->
  returns (Some d) inspect_database.
Proof.
  intros Hom Hoc Hdq Hsizes. unfold inspect_database.
  apply returns_bind;
    [ apply returns_connect_db
    | apply (preserves_connect_db _ _ db_file_add_line db_file_set_conn)
    | intros _ ].
  returns_by ltac:(first
    [ apply (returns_section_offline_manga d oms Hom)
    | apply (returns_section_offline_chapters d oms ocs Hom Hoc)
    | apply (returns_section_download_queue d dqs Hdq)
    | apply (returns_section_statistics d oms ocs dqs Hom Hoc Hdq Hsizes)
    | apply (returns_section_issues d oms ocs dqs Hom Hoc Hdq) ]).
  apply returns_query. unfold select_tables. eauto.
Qed.

(* ================================================================== *)
(** ** The store is only read *)

(** C6: no run of the tool changes the store.  Whatever the arguments, the
    engine and the state of the process, the catalogue file after [main]
    (the full report, or the single-work lookup) is the file before it,
    also when the run raises. *)
Theorem store_never_mutated (engine : SqlEngine) (argv : list string)
        (manga_id extension_id : string) (w : World) :
  db_file (snd (main argv w)) = db_file w
  /\ db_file (snd (inspect_database w)) = db_file w
  /\ db_file (snd (check_specific_manga manga_id extension_id w)) = db_file w.
Proof.
  split; [|split].
  - apply (preserves_main _ _ db_file_add_line db_file_set_conn).
  - apply (preserves_inspect_database _ _ db_file_add_line db_file_set_conn).
  - apply (preserves_check_specific_manga _ _ db_file_add_line db_file_set_conn).
Qed.

(* ================================================================== *)
(** ** The connection *)



(* ================================================================== *)
(** ** The queue listing *)

Lemma passes_ret {A} (a : A) : passes (ret a).
Proof. intros w. exists a, w. now split. Qed.

Lemma passes_print (l : line) : passes (print l).
Proof.
  intros w. exists tt, (add_line l w). split; [reflexivity|].
  intros l' Hl'. simpl. apply in_or_app. now left.
Qed.

Lemma passes_lift {A} (r : result A) : (exists a, r = Ok a) -> passes (lift r).
Proof. intros [a ->] w. exists a, w. now split. Qed.

Lemma passes_bind {A B} (m : M A) (k : A -> M B) :
  passes m -> (forall a, passes (k a)) -> passes (bind m k).
Proof.
  intros Hm Hk w. destruct (Hm w) as [a [w1 [Hrun Hin]]].
  destruct (Hk a w1) as [b [w2 [Hrun2 Hin2]]].
  exists b, w2. unfold bind. rewrite Hrun. split; [exact Hrun2|]. auto.
Qed.

Lemma passes_if {A} (c : bool) (m1 m2 : M A) :
  passes m1 -> passes m2 -> passes (if c then m1 else m2).
Proof. now destruct c. Qed.

Lemma passes_when (c : bool) (m : M unit) : passes m -> passes (when c m).
Proof. intros Hm. destruct c; [exact Hm | apply passes_ret]. Qed.

Lemma emits_print (l : line) : emits l (print l).
Proof.
  intros w. exists tt, (add_line l w). split; [reflexivity|].
  simpl. apply in_or_app. right. now left.
Qed.

(** The line is printed by the first part of a sequence ... *)
Lemma emits_bind_first {A B} (l : line) (m : M A) (k : A -> M B) :
  emits l m -> (forall a, passes (k a)) -> emits l (bind m k).
Proof.
  intros Hm Hk w. destruct (Hm w) as [a [w1 [Hrun Hin]]].
  destruct (Hk a w1) as [b [w2 [Hrun2 Hin2]]].
  exists b, w2. unfold bind. rewrite Hrun. split; [exact Hrun2|]. auto.
Qed.

(** ... or by what follows it. *)
Lemma emits_bind_rest {A B} (l : line) (m : M A) (k : A -> M B) :
  passes m -> (forall a, emits l (k a)) -> emits l (bind m k).
Proof.
  intros Hm Hk w. destruct (Hm w) as [a [w1 [Hrun _]]].
  destruct (Hk a w1) as [b [w2 [Hrun2 Hin2]]].
  exists b, w2. unfold bind. rewrite Hrun. now split.
Qed.

Lemma emits_bind_lift {A B} (l : line) (a : A) (k : A -> M B) :
  emits l (k a) -> emits l (bind (lift (Ok a)) k).
Proof. intros Hk w. exact (Hk w). Qed.

Lemma emits_unit (l : line) (m : M unit) (w : World) :
  emits l m -> exists w', m w = (Ok tt, w') /\ In l (stdout w').
Proof. intros Hm. destruct (Hm w) as [[] [w' H]]. now exists w'. Qed.

Ltac passes :=
  repeat first
    [ apply passes_print
    | apply passes_ret
    | apply passes_when
    | apply passes_if
    | apply passes_bind; [|intros ?] ].

Lemma print_queue_item_head (item : dq.row) (w : World) :
  exists w', print_queue_item item w = (Ok tt, w')
             /\ In (queue_head_line item (status_emoji (dq.status item))) (stdout w').
Proof.
  apply emits_unit. unfold print_queue_item, queue_head_line.
  apply emits_bind_first; [apply emits_print | intros _].
  passes. apply passes_lift, progress_pct_ok.
Qed.

Lemma print_queue_item_progress (item : dq.row) (pct : Q) (w : World) :
  dq.status item = "downloading" ->
  progress_pct item = Ok pct ->
  exists w', print_queue_item item w = (Ok tt, w')
             /\ In (progress_line item pct) (stdout w').
Proof.
  intros Hst Hpct. apply emits_unit. unfold print_queue_item, progress_line.
  rewrite Hpct, Hst.
  do 6 (apply emits_bind_rest; [passes | intros _]).
  apply emits_bind_first; [|intros _; passes].
  change (String.eqb "downloading" "downloading") with true.
  unfold when.
  apply emits_bind_lift, emits_print.
Qed.

Lemma print_queue_brief_head (item : dq.row) (w : World) :
  exists w', print_queue_brief item w = (Ok tt, w')
             /\ In (queue_brief_line item (status_emoji (dq.status item))) (stdout w').
Proof.
  apply emits_unit. unfold print_queue_brief, queue_brief_line.
  apply emits_bind_first; [apply emits_print | intros _]. passes.
Qed.

(** C7: for an entry that is downloading, the percentage always has a
    value (the division is never reached with a zero or missing total): it
    is 0 when [progress_total] is NULL or not positive, and
    [progress_current / progress_total * 100] otherwise; the entry prints,
    and its progress line shows that value. *)
Theorem progress_percentage_guarded (item : dq.row) (w : World) :
  dq.status item = "downloading" ->
  exists pct : Q,
    progress_pct item = Ok pct
    /\ ((dq.progress_total item = None
         \/ exists t, dq.progress_total item = Some t /\ t <= 0) -> pct = 0%Q)
    /\ (forall t, dq.progress_total item = Some t -> 0 < t ->
          pct = (inject_Z (dq.progress_current item) / inject_Z t * 100)%Q)
    /\ exists w', print_queue_item item w = (Ok tt, w')
                  /\ In (progress_line item pct) (stdout w').
Proof.
  intros Hst. destruct (progress_pct_ok item) as [pct Hpct].
  exists pct. split; [exact Hpct|].
  pose proof (progress_pct_cases item) as Hcases. rewrite Hpct in Hcases.
  repeat split.
  - intros [Hnone | [t [Ht Hle]]].
    + rewrite Hnone in Hcases. congruence.
    + rewrite Ht in Hcases.
      destruct (Z.ltb_spec 0 t); [lia | congruence].
  - intros t Ht Hpos. rewrite Ht in Hcases.
    destruct (Z.ltb_spec 0 t); [congruence | lia].
  - now apply print_queue_item_progress.
Qed.

Lemma progress_percentage_guarded_witness :
  exists pct : Q,
    progress_pct (with_status "downloading" (Some 0) sample_entry) = Ok pct
    /\ pct = 0%Q.
Proof.
  destruct (progress_percentage_guarded
              (with_status "downloading" (Some 0) sample_entry)
              (start (Some sample_store) 0) eq_refl)
    as [pct [Hpct [Hzero _]]].
  exists pct. split; [exact Hpct|].
  apply Hzero. right. exists 0. split; [reflexivity | lia].
Defined.

Lemma status_emoji_known :
  map status_emoji known_statuses = ["⏳"; "⬇️"; "✅"; "❌"].
Proof. reflexivity. Qed.

Lemma status_emoji_unknown (status : string) :
  ~ In status known_statuses -> status_emoji status = "❓".
Proof.
  intros Hnot. unfold status_emoji.
  destruct (String.eqb_spec status "queued") as [->|_];
    [exfalso; apply Hnot; simpl; auto|].
  destruct (String.eqb_spec status "downloading") as [->|_];
    [exfalso; apply Hnot; simpl; auto|].
  destruct (String.eqb_spec status "completed") as [->|_];
    [exfalso; apply Hnot; simpl; auto|].
  destruct (String.eqb_spec status "failed") as [->|_];
    [exfalso; apply Hnot; simpl; auto|].
  reflexivity.
Qed.

Lemma for_each_returns {A} (body : A -> M unit) (xs : list A) (w : World) :
  (forall x d, returns d (body x)) ->
  (forall x, preserves db_file (body x)) ->
  fst (for_each xs body w) = Ok tt.
Proof.
  intros Hbody Hkeep.
  destruct (returns_for_each (db_file w) xs body
              (fun x _ => Hbody x (db_file w)) Hkeep w eq_refl) as [[] H].
  exact H.
Qed.

(** C8: an entry whose status is none of the four known values gets the
    glyph "❓", which is none of the four known glyphs, in the queue
    listing of the full report and in the one of the single-work lookup;
    printing the entry, and printing any whole listing, returns. *)
Theorem unknown_status_rendered (item : dq.row) (w : World) :
  ~ In (dq.status item) known_statuses ->
  status_emoji (dq.status item) = "❓"
  /\ ~ In "❓" (map status_emoji known_statuses)
  /\ (exists w', print_queue_item item w = (Ok tt, w')
                 /\ In (queue_head_line item "❓") (stdout w'))
  /\ (exists w', print_queue_brief item w = (Ok tt, w')
                 /\ In (queue_brief_line item "❓") (stdout w'))
  /\ (forall queue, fst (for_each queue print_queue_item w) = Ok tt)
  /\ (forall queue_items, fst (for_each queue_items print_queue_brief w) = Ok tt).
Proof.
  intros Hunknown.
  pose proof (status_emoji_unknown _ Hunknown) as Hglyph.
  split; [exact Hglyph|]. split.
  { rewrite status_emoji_known. simpl.
    intros [H|[H|[H|[H|[]]]]]; discriminate H. }
  split.
  { rewrite <- Hglyph. apply print_queue_item_head. }
  split.
  { rewrite <- Hglyph. apply print_queue_brief_head. }
  split.
  - intros queue. apply for_each_returns.
    + intros x d. apply returns_print_queue_item.
    + intros x. apply (preserves_print_queue_item _ _ db_file_add_line).
  - intros queue_items. apply for_each_returns.
    + intros x d. apply returns_print_queue_brief.
    + intros x. apply (preserves_print_queue_brief _ _ db_file_add_line).
Qed.

Lemma unknown_status_rendered_witness :
  status_emoji "paused" = "❓".
Proof.
  refine (proj1 (unknown_status_rendered
                   (with_status "paused" None sample_entry)
                   (start (Some sample_store) 0) _)).
  simpl. intros [H|[H|[H|[H|[]]]]]; discriminate H.
Defined.

(* ================================================================== *)
(** ** The frozen-download check *)

Lemma frozen_where_iff (now : Z) (q : dq.row) :
  frozen_where now q = true <->
  dq.status q = "downloading"
  /\ exists s, dq.started_at q = Some s /\ now / 1000 * 1000 - s > 3600000.
Proof.
  unfold frozen_where, strftime_s.
  destruct (String.eqb_spec (dq.status q) "downloading") as [Hst|Hst];
    destruct (dq.started_at q) as [s|]; simpl.
  - destruct (Z.gtb_spec (now / 1000 * 1000 - s) 3600000) as [Hgt|Hle].
    + split; [intros _|reflexivity]. split; [exact Hst|]. exists s. split; [reflexivity|lia].
    + split; [discriminate|]. intros [_ [s' [Hs' Hgt]]]. injection Hs' as <-. lia.
  - split; [discriminate|]. intros [_ [s' [Hs' _]]]. discriminate.
  - destruct (now / 1000 * 1000 - s >? 3600000);
      (split; [discriminate|]); intros [H _]; contradiction.
  - split; [discriminate|]. intros [H _]. contradiction.
Qed.

(** C2 (as the script has it): the check reads the clock in whole seconds.
    An entry is flagged if and only if its status is [downloading], its
    [started_at] is not NULL, and [now' - started_at > 3600000], where
    [now'] is the current time cut down to a whole second.  So at a current
    time that is a whole second the boundary is as stated: started exactly
    one hour ago is not flagged, one millisecond earlier is; in general the
    entry is flagged when more than [3600000 + now mod 1000] milliseconds
    have passed. *)
Theorem frozen_check_whole_seconds (now : Z) (q : dq.row) :
  (frozen_where now q = true <->
   dq.status q = "downloading"
   /\ exists s, dq.started_at q = Some s /\ now / 1000 * 1000 - s > 3600000)
  /\ (frozen_where now q = true <->
      dq.status q = "downloading"
      /\ exists s, dq.started_at q = Some s /\ now - s > 3600000 + now mod 1000)
  /\ (forall seconds,
        frozen_where (seconds * 1000)
          (with_status "downloading" (Some (seconds * 1000 - 3600000)) q) = false
        /\ frozen_where (seconds * 1000)
             (with_status "downloading" (Some (seconds * 1000 - 3600001)) q) = true).
Proof.
  split; [apply frozen_where_iff|]. split.
  - rewrite frozen_where_iff.
    pose proof (Z.div_mod now 1000 ltac:(lia)) as Hdm.
    split; intros [Hst [s [Hs Hgt]]]; (split; [exact Hst|]); exists s;
      (split; [exact Hs|]); lia.
  - intros seconds. unfold frozen_where, strftime_s. simpl.
    rewrite Z.div_mul by lia. split.
    + destruct (Z.gtb_spec (seconds * 1000 - (seconds * 1000 - 3600000)) 3600000);
        [lia | reflexivity].
    + destruct (Z.gtb_spec (seconds * 1000 - (seconds * 1000 - 3600001)) 3600000);
        [reflexivity | lia].
Qed.

(** C2, as stated, fails between two whole seconds: at the current time
    7200999 an entry that started 3600001 ms ago is downloading for more
    than an hour, and is not flagged. *)
Lemma frozen_check_misses_within_second :
  let now := 7200999 in
  let q := with_status "downloading" (Some (now - 3600001)) sample_entry in
  dq.status q = "downloading"
  /\ dq.started_at q = Some (now - 3600001)
  /\ now - (now - 3600001) > 3600000
  /\ frozen_where now q = false.
Proof. vm_compute. repeat split; reflexivity. Qed.

(** C10: the elapsed minutes come out of two integer divisions, so they
    are whole minutes.  An entry that started 61.5 minutes ago is flagged
    and reported as stuck for 61 minutes. *)
Theorem frozen_minutes_are_whole :
  let now := 1700003690000 in
  let q := with_status "downloading" (Some (now - 3690000)) sample_entry in
  let w := start (Some (store_with_queue [q])) now in
  select_frozen now (store_with_queue [q]) = Ok [mk_frozen now q]
  /\ frozen.minutes_elapsed (mk_frozen now q) = Some 61
  /\ (inject_Z (now - (now - 3690000)) / inject_Z 60000 == 123 # 2)%Q
  /\ ~ (inject_Z 61 == 123 # 2)%Q
  /\ fst (check_frozen w) = Ok tt
  /\ In [Lit "        Stuck for: "; Fixed 1 (inject_Z 61); Lit " minutes"]
        (stdout (snd (check_frozen w))).
Proof.
  vm_compute. repeat split; try reflexivity.
  - intros H. discriminate H.
  - right. right. left. reflexivity.
Qed.

(* ================================================================== *)
(** ** The empty-chapter check *)

Lemma zero_pages_where_iff (c : oc.row) :
  zero_pages_where c = true <->
  oc.total_pages c = Some 0 \/ oc.total_pages c = None.
Proof.
  unfold zero_pages_where. destruct (oc.total_pages c) as [n|]; simpl.
  - destruct (Z.eqb_spec n 0) as [->|Hn]; simpl.
    + split; auto.
    + split; [discriminate|]. intros [H|H]; [|discriminate]. congruence.
  - split; auto.
Qed.

Lemma for_each_map {A B} (f : A -> B) (body : B -> M unit) (xs : list A) :
  for_each (map f xs) body = for_each xs (fun x => body (f x)).
Proof.
  induction xs as [|x r IH]; simpl; [reflexivity|]. now rewrite IH.
Qed.

(** C3: a downloaded chapter (a row of [offline_chapters] owned by a work
    of the store) is reported by the empty-chapter check if and only if its
    [total_pages] is 0 or NULL; what is printed for it is the same in the
    two cases; a chapter with one page is not reported. *)
Theorem empty_chapter_check (db : Database) (oms : list om.row)
        (ocs : list oc.row) (c : oc.row) :
  offline_manga db = Some oms ->
  offline_chapters db = Some ocs ->
  (exists m, In m oms /\ om.id m = oc.offline_manga_id c) ->
  select_zero_pages db = Ok (flat_map (zero_pages_rows_of oms) ocs)
  /\ (zero_pages_rows_of oms c <> [] <->
      oc.total_pages c = Some 0 \/ oc.total_pages c = None)
  /\ (forall w,
        for_each (zero_pages_rows_of oms (with_total_pages (Some 0) c))
                 print_zero_pages w
        = for_each (zero_pages_rows_of oms (with_total_pages None c))
                   print_zero_pages w)
  /\ zero_pages_rows_of oms (with_total_pages (Some 1) c) = [].
Proof.
  intros Hom Hoc [m [Hm Hid]]. split; [|split; [|split]].
  - unfold select_zero_pages. now rewrite Hoc, Hom.
  - unfold zero_pages_rows_of. rewrite <- zero_pages_where_iff.
    destruct (zero_pages_where c); split; try easy.
    intros _ Hnil.
    assert (Hin : In (mk_zero c m) (map (mk_zero c) (filter (owned_by c) oms))).
    { apply in_map, filter_In. split; [exact Hm|].
      unfold owned_by. apply Z.eqb_eq. now symmetry. }
    rewrite Hnil in Hin. exact Hin.
  - intros w. unfold zero_pages_rows_of. simpl.
    now rewrite !for_each_map.
  - reflexivity.
Qed.

Lemma empty_chapter_check_witness :
  zero_pages_rows_of [sample_work] sample_chapter <> [].
Proof.
  apply (empty_chapter_check sample_store [sample_work] [sample_chapter]
           sample_chapter eq_refl eq_refl).
  - exists sample_work. split; [now left | reflexivity].
  - left. reflexivity.
Defined.

(* ================================================================== *)
(** ** The duplicate check *)

Lemma same_work_iff (q : dq.row) (m : om.row) :
  same_work q m = true <->
  om.extension_id m = dq.extension_id q /\ om.manga_id m = dq.manga_id q.
Proof.
  unfold same_work. rewrite andb_true_iff, !String.eqb_eq.
  split; intros [H1 H2]; split; congruence.
Qed.

Lemma same_chapter_iff (q : dq.row) (m : om.row) (c : oc.row) :
  same_chapter q m c = true <->
  oc.offline_manga_id c = om.id m /\ dq.chapter_id q = Some (oc.chapter_id c).
Proof.
  unfold same_chapter, owned_by.
  destruct (dq.chapter_id q) as [cid|]; simpl.
  - destruct (Z.eqb_spec (oc.offline_manga_id c) (om.id m)) as [Hid|Hid];
      destruct (String.eqb_spec (oc.chapter_id c) cid) as [Hc|Hc]; simpl;
      split; try discriminate; try (intros [H1 H2]; congruence).
    intros _. split; congruence.
  - destruct (oc.offline_manga_id c =? om.id m); simpl;
      split; try discriminate; intros [_ H]; discriminate.
Qed.

(** Under a unique key, a filter that only lets one key through keeps at
    most the one row that has it. *)
Lemma filter_unique_key {A K} (key : A -> K) (p : A -> bool) (l : list A) (x : A) :
  NoDup (map key l) ->
  (forall y, In y l -> p y = true -> key y = key x) ->
  In x l -> p x = true ->
  filter p l = [x].
Proof.
  induction l as [|a r IH]; intros Hnd Hkey Hin Hp; [destruct Hin|].
  simpl in Hnd. apply NoDup_cons_iff in Hnd. destruct Hnd as [Ha Hnd].
  assert (Hrest : forall y, In y r -> p y = true -> key y = key x)
    by (intros y Hy; apply Hkey; now right).
  simpl. destruct Hin as [->|Hin].
  - rewrite Hp. f_equal.
    destruct (filter p r) as [|y t] eqn:Hf; [reflexivity|].
    exfalso. apply Ha.
    assert (Hy : In y (filter p r)) by (rewrite Hf; now left).
    apply filter_In in Hy. destruct Hy as [Hy Hpy].
    rewrite <- (Hrest y Hy Hpy). now apply in_map.
  - destruct (p a) eqn:Hpa.
    + exfalso. apply Ha.
      rewrite (Hkey a (or_introl eq_refl) Hpa). now apply in_map.
    + now apply IH.
Qed.

Lemma duplicate_rows_of_nonempty (oms : list om.row) (ocs : list oc.row)
      (q : dq.row) :
  duplicate_rows_of oms ocs q <> [] <-> already_downloaded oms ocs q.
Proof.
  unfold duplicate_rows_of, already_downloaded. split.
  - intros Hne.
    destruct (dq.chapter_id q) as [cid|] eqn:Hcid; simpl in Hne; [|easy].
    destruct (flat_map _ _) as [|r t] eqn:Hf in Hne; [easy|].
    assert (Hr : In r (flat_map
                         (fun m => map (fun _ => mk_dup q m)
                                       (filter (same_chapter q m) ocs))
                         (filter (same_work q) oms)))
      by (rewrite Hf; now left).
    apply in_flat_map in Hr. destruct Hr as [m [Hm Hr]].
    apply in_map_iff in Hr. destruct Hr as [c [_ Hc]].
    apply filter_In in Hm. destruct Hm as [Hm Hw].
    apply filter_In in Hc. destruct Hc as [Hc Hs].
    apply same_work_iff in Hw. destruct Hw as [He Hi].
    apply same_chapter_iff in Hs. destruct Hs as [Ho Hch].
    exists cid, m, c. rewrite Hcid in Hch. injection Hch as Hch.
    repeat split; auto.
  - intros [cid [m [c [Hcid [Hm [He [Hi [Hc [Ho Hch]]]]]]]]].
    rewrite Hcid. simpl. intros Hnil.
    assert (Hr : In (mk_dup q m)
                    (flat_map
                       (fun m => map (fun _ => mk_dup q m)
                                     (filter (same_chapter q m) ocs))
                       (filter (same_work q) oms))).
    { apply in_flat_map. exists m. split.
      - apply filter_In. split; [exact Hm|]. now apply same_work_iff.
      - apply in_map_iff. exists c. split; [reflexivity|].
        apply filter_In. split; [exact Hc|].
        apply same_chapter_iff. split; [exact Ho|]. congruence. }
    rewrite Hnil in Hr. exact Hr.
Qed.

Lemma duplicate_rows_of_unique (oms : list om.row) (ocs : list oc.row)
      (q : dq.row) :
  NoDup (map work_key oms) ->
  NoDup (map chapter_key ocs) ->
  already_downloaded oms ocs q ->
  exists m, In m oms /\ duplicate_rows_of oms ocs q = [mk_dup q m].
Proof.
  intros Hwk Hck [cid [m [c [Hcid [Hm [He [Hi [Hc [Ho Hch]]]]]]]]].
  exists m. split; [exact Hm|].
  unfold duplicate_rows_of. rewrite Hcid. simpl.
  rewrite (filter_unique_key work_key (same_work q) oms m Hwk).
  - simpl. rewrite app_nil_r.
    rewrite (filter_unique_key chapter_key (same_chapter q m) ocs c Hck).
    + reflexivity.
    + intros y _ Hy. apply same_chapter_iff in Hy. destruct Hy as [Hyo Hych].
      unfold chapter_key. rewrite Hcid in Hych. injection Hych as Hych.
      congruence.
    + exact Hc.
    + apply same_chapter_iff. split; [exact Ho|]. congruence.
  - intros y _ Hy. apply same_work_iff in Hy. destruct Hy as [Hye Hyi].
    unfold work_key. congruence.
  - exact Hm.
  - now apply same_work_iff.
Qed.

Lemma length_flat_map_ext {A B C} (f : A -> list B) (g : A -> list C) (l : list A) :
  (forall x, List.length (f x) = List.length (g x)) ->
  List.length (flat_map f l) = List.length (flat_map g l).
Proof.
  intros Hfg. induction l as [|x r IH]; simpl; [reflexivity|].
  now rewrite !length_app, Hfg, IH.
Qed.

(** The status (and the start time) of the entry is not looked at. *)
Lemma duplicate_rows_of_any_status (oms : list om.row) (ocs : list oc.row)
      (q : dq.row) (status : string) (started_at : option Z) :
  List.length (duplicate_rows_of oms ocs (with_status status started_at q))
  = List.length (duplicate_rows_of oms ocs q).
Proof.
  unfold duplicate_rows_of.
  change (dq.chapter_id (with_status status started_at q)) with (dq.chapter_id q).
  destruct (Sql.holds (Sql.is_not_null (dq.chapter_id q))); [|reflexivity].
  apply (length_flat_map_ext
           (fun m => map (fun _ => mk_dup (with_status status started_at q) m)
                         (filter (same_chapter q m) ocs))
           (fun m => map (fun _ => mk_dup q m) (filter (same_chapter q m) ocs))
           (filter (same_work q) oms)).
  intros m. now rewrite !length_map.
Qed.

(** C1: over a store whose tables have their keys ([(extension_id,
    manga_id)] unique among works, [chapter_id] unique among the chapters
    of a work), the duplicate check returns, entry by entry of the queue,
    the rows [duplicate_rows_of]: an entry gets a row if and only if it
    names a chapter and a downloaded work with its business key owns a
    chapter with that [chapter_id]; an entry without [chapter_id] gets
    none; the entry's status plays no part; and an entry that is reported
    gets exactly one row, which carries its id and its current status. *)
Theorem duplicate_check_flags_downloaded_chapters
        (db : Database) (oms : list om.row) (ocs : list oc.row)
        (dqs : list dq.row) :
  offline_manga db = Some oms ->
  offline_chapters db = Some ocs ->
  download_queue db = Some dqs ->
  NoDup (map work_key oms) ->
  NoDup (map chapter_key ocs) ->
  select_duplicate_queue db = Ok (flat_map (duplicate_rows_of oms ocs) dqs)
  /\ forall q,
       (duplicate_rows_of oms ocs q <> [] <-> already_downloaded oms ocs q)
       /\ (dq.chapter_id q = None -> duplicate_rows_of oms ocs q = [])
       /\ (forall status started_at,
             List.length (duplicate_rows_of oms ocs (with_status status started_at q))
             = List.length (duplicate_rows_of oms ocs q))
       /\ (already_downloaded oms ocs q ->
           exists m,
             In m oms
             /\ duplicate_rows_of oms ocs q = [mk_dup q m]
             /\ dup.queue_id (mk_dup q m) = dq.id q
             /\ dup.queue_status (mk_dup q m) = dq.status q).
Proof.
  intros Hom Hoc Hdq Hwk Hck. split.
  - unfold select_duplicate_queue. now rewrite Hdq, Hom, Hoc.
  - intros q. split; [apply duplicate_rows_of_nonempty|]. split; [|split].
    + intros Hnone. unfold duplicate_rows_of. now rewrite Hnone.
    + intros status started_at. apply duplicate_rows_of_any_status.
    + intros Hdup.
      destruct (duplicate_rows_of_unique oms ocs q Hwk Hck Hdup) as [m [Hm Hrows]].
      exists m. repeat split; assumption.
Qed.

Lemma duplicate_check_flags_downloaded_chapters_witness :
  select_duplicate_queue sample_store = Ok [mk_dup sample_entry sample_work].
Proof.
  destruct (duplicate_check_flags_downloaded_chapters
              sample_store [sample_work] [sample_chapter] [sample_entry]
              eq_refl eq_refl eq_refl) as [Hsel _].
  - repeat constructor. simpl. tauto.
  - repeat constructor. simpl. tauto.
  - exact Hsel.
Defined.

(* ================================================================== *)
(** ** The empty store *)

(** C4: over a store whose three tables are empty, the counts of works, of
    chapters and of queued, downloading and failed entries are 0, the sum
    of sizes is NULL and is reported as 0, and each of the three checks
    prints its "nothing found" line. *)
Theorem empty_store_report (db : Database) (w : World) :
  offline_manga db = Some [] ->
  offline_chapters db = Some [] ->
  download_queue db = Some [] ->
  db_file w = Some db ->
  count_offline_manga db = Ok 0
  /\ count_offline_chapters db = Ok 0
  /\ count_download_queue "queued" db = Ok 0
  /\ count_download_queue "downloading" db = Ok 0
  /\ count_download_queue "failed" db = Ok 0
  /\ sum_total_size_bytes db = Ok None
  /\ Py.or_int None 0 = 0
  /\ section_statistics w = (Ok tt, add_lines (statistics_lines 0 0 0 0 0 0) w)
  /\ section_issues w = (Ok tt, add_lines clean_issues_lines w).
Proof.
  intros Hom Hoc Hdq Hw.
  assert (H1 : count_offline_manga db = Ok 0)
    by (unfold count_offline_manga; now rewrite Hom).
  assert (H2 : count_offline_chapters db = Ok 0)
    by (unfold count_offline_chapters; now rewrite Hoc).
  assert (H3 : forall s, count_download_queue s db = Ok 0)
    by (intros s; unfold count_download_queue; now rewrite Hdq).
  assert (H4 : sum_total_size_bytes db = Ok None)
    by (unfold sum_total_size_bytes; now rewrite Hom).
  repeat (split; [solve [auto]|]). split.
  - unfold section_statistics, bind, print, execute, query,
      count_offline_manga, count_offline_chapters, count_download_queue,
      sum_total_size_bytes.
    simpl.
    repeat (first [rewrite Hw | rewrite Hom | rewrite Hoc | rewrite Hdq]; simpl).
    reflexivity.
  - unfold section_issues, check_duplicate_queue, check_frozen, check_zero_pages,
      bind, print, execute, query,
      select_duplicate_queue, select_frozen, select_zero_pages.
    simpl.
    repeat (first [rewrite Hw | rewrite Hom | rewrite Hoc | rewrite Hdq]; simpl).
    reflexivity.
Qed.

Lemma empty_store_report_witness :
  section_issues (start (Some empty_store) 0)
  = (Ok tt, add_lines clean_issues_lines (start (Some empty_store) 0)).
Proof.
  apply (empty_store_report empty_store (start (Some empty_store) 0)
           eq_refl eq_refl eq_refl eq_refl).
Defined.

(* ================================================================== *)
(** ** The order of the queue listing *)

Lemma by_priority_desc_queued_asc_iff (a b : dq.row) :
  by_priority_desc_queued_asc a b = true <-> queue_order a b.
Proof.
  unfold by_priority_desc_queued_asc, queue_order.
  rewrite orb_true_iff, andb_true_iff, Z.gtb_ltb, Z.ltb_lt, Z.eqb_eq, Z.leb_le.
  lia.
Qed.

Lemma by_priority_desc_queued_asc_total (a b : dq.row) :
  by_priority_desc_queued_asc a b = true \/ by_priority_desc_queued_asc b a = true.
Proof. rewrite !by_priority_desc_queued_asc_iff. unfold queue_order. lia. Qed.

Lemma by_priority_desc_queued_asc_trans (a b c : dq.row) :
  by_priority_desc_queued_asc a b = true ->
  by_priority_desc_queued_asc b c = true ->
  by_priority_desc_queued_asc a c = true.
Proof. rewrite !by_priority_desc_queued_asc_iff. unfold queue_order. lia. Qed.

Lemma queue_order_same_key (a b : dq.row) :
  queue_order a b -> queue_order b a -> queue_key a = queue_key b.
Proof. unfold queue_order, queue_key. intros H1 H2. f_equal; lia. Qed.

Lemma StronglySorted_weaken {A} (R S : A -> A -> Prop) (l : list A) :
  (forall x y, R x y -> S x y) -> StronglySorted R l -> StronglySorted S l.
Proof.
  intros HRS. induction 1 as [|x r Hs IH Hall]; constructor; [exact IH|].
  eapply Forall_impl; [|exact Hall]. intros y. apply HRS.
Qed.

Lemma NoDup_map_injective {A K} (key : A -> K) (l : list A) (x y : A) :
  NoDup (map key l) -> In x l -> In y l -> key x = key y -> x = y.
Proof.
  induction l as [|a r IH]; intros Hnd Hx Hy Hk; [destruct Hx|].
  simpl in Hnd. apply NoDup_cons_iff in Hnd. destruct Hnd as [Ha Hnd].
  destruct Hx as [->|Hx], Hy as [->|Hy].
  - reflexivity.
  - exfalso. apply Ha. rewrite Hk. now apply in_map.
  - exfalso. apply Ha. rewrite <- Hk. now apply in_map.
  - now apply IH.
Qed.

Lemma NoDup_map_filter {A K} (key : A -> K) (p : A -> bool) (l : list A) :
  NoDup (map key l) -> NoDup (map key (filter p l)).
Proof.
  induction l as [|a r IH]; intros Hnd; [constructor|].
  simpl in Hnd. apply NoDup_cons_iff in Hnd. destruct Hnd as [Ha Hnd].
  simpl. destruct (p a); [|now apply IH].
  simpl. constructor; [|now apply IH].
  intros Hin. apply Ha. apply in_map_iff in Hin. destruct Hin as [x [Hk Hx]].
  apply filter_In in Hx. rewrite <- Hk. apply in_map. tauto.
Qed.

(** Two sorted arrangements of the same rows are the same list, when rows
    that the order does not separate are equal. *)
Lemma sorted_permutation_unique {A} (R : A -> A -> Prop) (l1 : list A) :
  forall l2,
    StronglySorted R l1 -> StronglySorted R l2 -> Permutation l1 l2 ->
    (forall x y, In x l1 -> In y l1 -> R x y -> R y x -> x = y) ->
    l1 = l2.
Proof.
  induction l1 as [|a r1 IH]; intros l2 Hs1 Hs2 Hp Hanti.
  - apply Permutation_nil in Hp. now subst.
  - destruct l2 as [|b r2].
    + apply Permutation_sym, Permutation_nil in Hp. discriminate.
    + apply StronglySorted_inv in Hs1. destruct Hs1 as [Hs1 Ha].
      apply StronglySorted_inv in Hs2. destruct Hs2 as [Hs2 Hb].
      rewrite Forall_forall in Ha, Hb.
      assert (Hab : a = b).
      { assert (Hin_a : In a (b :: r2))
          by (eapply Permutation_in; [exact Hp | now left]).
        assert (Hin_b : In b (a :: r1))
          by (eapply Permutation_in; [apply Permutation_sym, Hp | now left]).
        destruct Hin_a as [Hba | Hin_a]; [now symmetry|].
        destruct Hin_b as [Hab | Hin_b]; [exact Hab|].
        apply Hanti; [now left | now right | now apply Ha | now apply Hb]. }
      subst b. f_equal.
      apply IH; try assumption.
      * now apply Permutation_cons_inv in Hp.
      * intros x y Hx Hy. apply Hanti; now right.
Qed.

(** What every engine returns for [ORDER BY priority DESC, queued_at ASC]. *)
Lemma order_by_queue {engine : SqlEngine} (rows : list dq.row) :
  Permutation rows (order_by by_priority_desc_queued_asc rows)
  /\ StronglySorted queue_order (order_by by_priority_desc_queued_asc rows).
Proof.
  split; [apply order_by_perm|].
  eapply StronglySorted_weaken;
    [ intros x y; apply by_priority_desc_queued_asc_iff
    | apply order_by_sorted;
      [ apply by_priority_desc_queued_asc_total
      | apply by_priority_desc_queued_asc_trans ] ].
Qed.

Lemma order_by_queue_unique (e1 e2 : SqlEngine) (rows : list dq.row) :
  NoDup (map queue_key rows) ->
  @order_by e1 _ by_priority_desc_queued_asc rows
  = @order_by e2 _ by_priority_desc_queued_asc rows.
Proof.
  intros Hnd.
  destruct (@order_by_queue e1 rows) as [Hp1 Hs1].
  destruct (@order_by_queue e2 rows) as [Hp2 Hs2].
  apply (sorted_permutation_unique queue_order); try assumption.
  - eapply perm_trans; [apply Permutation_sym, Hp1 | exact Hp2].
  - intros x y Hx Hy Hxy Hyx.
    apply (NoDup_map_injective queue_key rows); try assumption.
    + eapply Permutation_in; [apply Permutation_sym, Hp1 | exact Hx].
    + eapply Permutation_in; [apply Permutation_sym, Hp1 | exact Hy].
    + now apply queue_order_same_key.
Qed.

(** C5 (as the script has it): whatever the engine, the queue listing is a
    rearrangement of the rows of [download_queue] sorted by priority
    descending, then by [queued_at] ascending, and the single-work lookup
    lists the rows of its work by the same rule.  The statement names no
    further key: when no two rows share both keys the listing is the same
    for every engine, and otherwise the order among such rows is the
    engine's. *)
Theorem queue_listing_sorted (engine : SqlEngine) (db : Database)
        (dqs : list dq.row) (extension_id manga_id : string) :
  download_queue db = Some dqs ->
  (exists queue,
      select_download_queue db = Ok queue
      /\ Permutation dqs queue
      /\ StronglySorted queue_order queue
      /\ (NoDup (map queue_key dqs) ->
          forall engine' : SqlEngine,
            @select_download_queue engine' db = Ok queue))
  /\ (exists queue_items,
         select_queue_of extension_id manga_id db = Ok queue_items
         /\ Permutation (filter (queue_of extension_id manga_id) dqs) queue_items
         /\ StronglySorted queue_order queue_items
         /\ (NoDup (map queue_key dqs) ->
             forall engine' : SqlEngine,
               @select_queue_of engine' extension_id manga_id db = Ok queue_items)).
Proof.
  intros Hdq. split.
  - exists (order_by by_priority_desc_queued_asc dqs).
    unfold select_download_queue. rewrite Hdq. simpl.
    destruct (order_by_queue dqs) as [Hp Hs].
    repeat split; try assumption.
    intros Hnd engine'. f_equal. now apply order_by_queue_unique.
  - exists (order_by by_priority_desc_queued_asc
              (filter (queue_of extension_id manga_id) dqs)).
    unfold select_queue_of. rewrite Hdq. simpl.
    destruct (order_by_queue (filter (queue_of extension_id manga_id) dqs))
      as [Hp Hs].
    repeat split; try assumption.
    intros Hnd engine'. f_equal.
    apply order_by_queue_unique. now apply NoDup_map_filter.
Qed.

Lemma queue_listing_sorted_witness :
  let db := library_store sample_queue in
  let listing := [ queue_row 10 5 1700000200000 "queued" None;
                   queue_row 9 5 1700000300000 "queued" None;
                   sample_entry ] in
  @select_download_queue stable_engine db = Ok listing
  /\ Permutation sample_queue listing
  /\ StronglySorted queue_order listing
  /\ @select_download_queue backward_engine db = Ok listing.
Proof.
  intros db listing.
  destruct (queue_listing_sorted stable_engine db sample_queue
              "com.weebcentral.manga" "m-1" eq_refl)
    as [[queue [Hsel [Hperm [Hsorted Hany]]]] _].
  assert (Hqueue : queue = listing)
    by (vm_compute in Hsel; injection Hsel as <-; reflexivity).
  rewrite Hqueue in *.
  split; [exact Hsel|]. split; [exact Hperm|]. split; [exact Hsorted|].
  apply Hany.
  repeat (constructor; [simpl; intuition discriminate|]). constructor.
Defined.

(** C5, as stated, fails: two entries with the same priority and the same
    [queued_at] are in the table in the order 7, 8; an engine that scans
    the table backwards lists them 8, 7, and both lists are sorted by the
    two keys. *)
Lemma queue_listing_ties_follow_engine :
  let db := store_with_queue [sample_entry; sample_entry_2] in
  queue_key sample_entry = queue_key sample_entry_2
  /\ download_queue db = Some [sample_entry; sample_entry_2]
  /\ @select_download_queue backward_engine db = Ok [sample_entry_2; sample_entry]
  /\ @select_download_queue stable_engine db = Ok [sample_entry; sample_entry_2].
Proof. vm_compute. repeat split; reflexivity. Qed.


(* ================================================================== *)
(** ** Without a catalogue file *)

(** X1: when the catalogue file does not exist, every way of starting the
    script (any arguments, so the full report as well as the lookup) prints
    the one "not found" line and exits with status 1; no connection is
    opened and no statement is executed. *)
Theorem main_without_catalogue (engine : SqlEngine) (argv : list string)
        (w : World) :
  db_file w = None ->
  main argv w = (Raise (SystemExit 1), add_line database_not_found w).
Proof.
  intros Hd. unfold main.
  destruct argv as [|prog [|manga_id rest]];
    unfold inspect_database, check_specific_manga;
    now rewrite connect_db_then, Hd.
Qed.

Lemma main_without_catalogue_witness :
  @main stable_engine ["debug-offline-storage.py"; "m-1"] (start None 0)
  = (Raise (SystemExit 1), add_line database_not_found (start None 0)).
Proof. apply (main_without_catalogue stable_engine). reflexivity. Defined.

(* ================================================================== *)
(** ** The early returns *)

Lemma filter_none {A} (p : A -> bool) (l : list A) :
  (forall x, In x l -> p x = false) -> filter p l = [].
Proof.
  induction l as [|a r IH]; intros Hp; [reflexivity|]. simpl.
  rewrite (Hp a (or_introl eq_refl)). apply IH. intros x Hx. apply Hp. now right.
Qed.

Lemma order_by_nil {engine : SqlEngine} {A} (le : A -> A -> bool) :
  order_by le [] = [].
Proof. apply Permutation_nil, order_by_perm. Qed.

Lemma select_tables_none {engine : SqlEngine} (d : Database) :
  (forall r, In r (sqlite_master d) -> is_storage_object r = false) ->
  select_tables d = Ok [].
Proof.
  intros Hnone. unfold select_tables.
  change (fun r : master.row =>
            (String.eqb (master.type r) "table"
             && Sql.like_prefix "offline" (master.name r))
            || Sql.like_prefix "download" (master.name r))
    with is_storage_object.
  rewrite (filter_none _ _ Hnone). simpl. now rewrite order_by_nil.
Qed.

(** X2: when no row of [sqlite_master] passes the condition of the tables
    statement, the full report prints its banner and the "no tables" line,
    closes the connection and returns; no other statement is executed, so
    nothing can fail. *)
Theorem report_without_tables (engine : SqlEngine) (d : Database) (w : World) :
  db_file w = Some d ->
  (forall r, In r (sqlite_master d) -> is_storage_object r = false) ->
  inspect_database w
  = (Ok tt, set_conn Closed (add_lines no_tables_lines (set_conn Connected w))).
Proof.
  intros Hd Hnone. unfold inspect_database. rewrite connect_db_then, Hd.
  unfold bind, print, execute, query. cbn -[select_tables].
  rewrite Hd, (select_tables_none d Hnone). reflexivity.
Qed.

Lemma report_without_tables_witness :
  let d := {| offline_manga := None; offline_chapters := None;
              download_queue := None;
              other_objects := [ {| master.type := "table"; master.name := "manga" |};
                                 {| master.type := "index"; master.name := "offline_idx" |} ] |} in
  fst (@inspect_database stable_engine (start (Some d) 0)) = Ok tt.
Proof.
  intros d.
  rewrite (report_without_tables stable_engine d (start (Some d) 0) eq_refl).
  - reflexivity.
  - intros r [<-|[<-|[]]]; reflexivity.
Defined.

(* ================================================================== *)
(** ** The tables that are listed *)

Lemma is_storage_object_table (name : string) :
  is_storage_object {| master.type := "table"; master.name := name |}
  = Sql.like_prefix "offline" name || Sql.like_prefix "download" name.
Proof. reflexivity. Qed.

(** X3: the names the report lists as tables are exactly the names of the
    rows of [sqlite_master] that are a table whose name starts with
    "offline", or anything at all (an index as well) whose name starts with
    "download"; the letter case is ignored.  Each of the three tables that
    exists is among them, and the list is empty exactly when no row passes
    the condition. *)
Theorem storage_objects_listed (engine : SqlEngine) (d : Database) :
  exists tables,
    select_tables d = Ok tables
    /\ (forall n, In n tables <->
                  exists r, In r (sqlite_master d)
                            /\ master.name r = n
                            /\ is_storage_object r = true)
    /\ (forall r, In r (sqlite_master d) ->
                  Sql.like_prefix "download" (master.name r) = true ->
                  In (master.name r) tables)
    /\ (offline_manga d <> None -> In "offline_manga" tables)
    /\ (offline_chapters d <> None -> In "offline_chapters" tables)
    /\ (download_queue d <> None -> In "download_queue" tables)
    /\ (tables = [] <->
        forall r, In r (sqlite_master d) -> is_storage_object r = false).
Proof.
  eexists. split; [reflexivity|].
  assert (Hin : forall n,
             In n (order_by String.leb
                     (map master.name (filter is_storage_object (sqlite_master d))))
             <-> exists r, In r (sqlite_master d) /\ master.name r = n
                           /\ is_storage_object r = true).
  { intros n. split.
    - intros Hn.
      apply (Permutation_in _ (Permutation_sym (order_by_perm _ _ _))) in Hn.
      apply in_map_iff in Hn. destruct Hn as [r [Hname Hr]].
      apply filter_In in Hr. exists r. tauto.
    - intros [r [Hr [Hname Hobj]]].
      apply (Permutation_in _ (order_by_perm _ _ _)).
      apply in_map_iff. exists r. split; [exact Hname|].
      now apply filter_In. }
  split; [exact Hin|].
  assert (Htable : forall A name (t : option (list A)),
             t <> None ->
             In {| master.type := "table"; master.name := name |}
                (master_entry name t)).
  { intros A name [rows|] Ht; [now left | contradiction]. }
  repeat split.
  - intros r Hr Hlike. apply Hin. exists r. repeat split; [exact Hr|].
    unfold is_storage_object. rewrite Hlike. apply orb_true_r.
  - intros Hex. apply Hin.
    exists {| master.type := "table"; master.name := "offline_manga" |}.
    repeat split. unfold sqlite_master. apply in_or_app. left. now apply Htable.
  - intros Hex. apply Hin.
    exists {| master.type := "table"; master.name := "offline_chapters" |}.
    repeat split. unfold sqlite_master.
    apply in_or_app. right. apply in_or_app. left. now apply Htable.
  - intros Hex. apply Hin.
    exists {| master.type := "table"; master.name := "download_queue" |}.
    repeat split. unfold sqlite_master.
    apply in_or_app. right. apply in_or_app. right.
    apply in_or_app. left. now apply Htable.
  - intros Hnil r Hr. destruct (is_storage_object r) eqn:Hobj; [|reflexivity].
    exfalso. assert (Hn : In (master.name r) []).
    { rewrite <- Hnil. apply Hin. now exists r. }
    exact Hn.
  - intros Hnone.
    pose proof (select_tables_none d Hnone) as Hsel.
    unfold select_tables in Hsel. now injection Hsel.
Qed.

(* ================================================================== *)
(** ** The single-work lookup *)

Lemma select_manga_spec (extension_id manga_id : string) (d : Database)
      (oms : list om.row) :
  offline_manga d = Some oms ->
  select_manga extension_id manga_id d
  = Ok (hd_error (filter (fun m => String.eqb (om.extension_id m) extension_id
                                   && String.eqb (om.manga_id m) manga_id) oms)).
Proof. intros Hom. unfold select_manga. now rewrite Hom. Qed.

Lemma work_matches_iff (extension_id manga_id : string) (m : om.row) :
  String.eqb (om.extension_id m) extension_id && String.eqb (om.manga_id m) manga_id
  = true
  <-> work_key m = (extension_id, manga_id).
Proof.
  unfold work_key. rewrite andb_true_iff, !String.eqb_eq.
  split; [intros [-> ->]; reflexivity | intros H; injection H; auto].
Qed.

Lemma select_manga_none (extension_id manga_id : string) (d : Database)
      (oms : list om.row) :
  offline_manga d = Some oms ->
  (forall m, In m oms -> work_key m <> (extension_id, manga_id)) ->
  select_manga extension_id manga_id d = Ok None.
Proof.
  intros Hom Hall. rewrite (select_manga_spec _ _ _ _ Hom).
  rewrite filter_none; [reflexivity|].
  intros m Hm.
  destruct (String.eqb (om.extension_id m) extension_id
            && String.eqb (om.manga_id m) manga_id) eqn:Hp; [|reflexivity].
  exfalso. apply (Hall m Hm). now apply work_matches_iff.
Qed.

(** X4: the lookup's first statement finds a work row with the key
    [(extension_id, manga_id)] that was asked for, or nothing: it answers
    [None] exactly when no row of [offline_manga] has that key, a row it
    answers has the key, and when the key is unique in the table the row
    with that key is the one it answers. *)
Theorem select_manga_finds_key (extension_id manga_id : string) (d : Database)
        (oms : list om.row) :
  offline_manga d = Some oms ->
  exists found,
    select_manga extension_id manga_id d = Ok found
    /\ (found = None <->
        forall m, In m oms -> work_key m <> (extension_id, manga_id))
    /\ (forall m, found = Some m ->
                  In m oms /\ work_key m = (extension_id, manga_id))
    /\ (NoDup (map work_key oms) ->
        forall m, In m oms -> work_key m = (extension_id, manga_id) ->
                  found = Some m).
Proof.
  intros Hom. eexists. split; [exact (select_manga_spec _ _ _ _ Hom)|].
  set (p := fun m => String.eqb (om.extension_id m) extension_id
                     && String.eqb (om.manga_id m) manga_id).
  assert (Hp : forall m, p m = true <-> work_key m = (extension_id, manga_id))
    by (intros m; apply work_matches_iff).
  assert (Hhd : forall m, hd_error (filter p oms) = Some m ->
                          In m oms /\ p m = true).
  { intros m Hm. destruct (filter p oms) as [|x r] eqn:Hf; [discriminate|].
    simpl in Hm. injection Hm as <-. apply filter_In. rewrite Hf. now left. }
  split; [split|split].
  - intros Hnone m Hm Hkey.
    assert (Hin : In m (filter p oms))
      by (apply filter_In; split; [exact Hm | now apply Hp]).
    destruct (filter p oms); [exact Hin | discriminate].
  - intros Hall. rewrite filter_none; [reflexivity|].
    intros m Hm. destruct (p m) eqn:Hpm; [|reflexivity].
    exfalso. apply (Hall m Hm). now apply Hp.
  - intros m Hm. destruct (Hhd m Hm) as [Hin Hpm]. split; [exact Hin|].
    now apply Hp.
  - intros Hnd m Hm Hkey.
    rewrite (filter_unique_key work_key p oms m Hnd); [reflexivity| |exact Hm|].
    + intros y _ Hy. apply Hp in Hy. congruence.
    + now apply Hp.
Qed.

Lemma select_manga_finds_key_witness :
  select_manga "com.weebcentral.manga" "m-1" sample_store = Ok (Some sample_work).
Proof.
  destruct (select_manga_finds_key "com.weebcentral.manga" "m-1" sample_store
              [sample_work] eq_refl) as [found [Hsel [_ [_ Hunique]]]].
  rewrite Hsel. f_equal. apply Hunique.
  - repeat constructor. simpl. tauto.
  - now left.
  - reflexivity.
Defined.

(** X5: when no row of [offline_manga] has the key that was asked for, the
    lookup prints its banner and the two "not found" lines, closes the
    connection and returns.  It stops there: [offline_chapters] and
    [download_queue] are not read (they may even be missing), so queue
    entries of that work are not shown. *)
Theorem lookup_of_unknown_work (engine : SqlEngine) (manga_id extension_id : string)
        (d : Database) (oms : list om.row) (w : World) :
  db_file w = Some d ->
  offline_manga d = Some oms ->
  (forall m, In m oms -> work_key m <> (extension_id, manga_id)) ->
  check_specific_manga manga_id extension_id w
  = (Ok tt,
     set_conn Closed (add_lines (not_found_lines manga_id) (set_conn Connected w))).
Proof.
  intros Hd Hom Hnone.
  pose proof (select_manga_none extension_id manga_id d oms Hom Hnone) as Hsel.
  unfold check_specific_manga. rewrite connect_db_then, Hd.
  unfold bind, print, execute, query. cbn -[select_manga].
  rewrite Hd, Hsel. reflexivity.
Qed.

Lemma lookup_of_unknown_work_witness :
  fst (@check_specific_manga stable_engine "m-2" "com.weebcentral.manga"
         (start (Some sample_store) 0)) = Ok tt.
Proof.
  rewrite (lookup_of_unknown_work stable_engine "m-2" "com.weebcentral.manga"
             sample_store [sample_work] (start (Some sample_store) 0)
             eq_refl eq_refl).
  - reflexivity.
  - intros m [<-|[]]. discriminate.
Defined.

Lemma returns_check_specific_manga {engine : SqlEngine}
      (manga_id extension_id : string) (d : Database)
      (oms : list om.row) (ocs : list oc.row) (dqs : list dq.row) :
  offline_manga d = Some oms ->
  offline_chapters d = Some ocs ->
  download_queue d = Some dqs ->
  returns (Some d) (check_specific_manga manga_id extension_id).
Proof.
  intros Hom Hoc Hdq. unfold check_specific_manga.
  apply returns_bind;
    [ apply returns_connect_db
    | apply (preserves_connect_db _ _ db_file_add_line db_file_set_conn)
    | intros _ ].
  returns.
  - apply returns_query. rewrite (select_manga_spec _ _ _ _ Hom). eauto.
  - match goal with
    | |- returns _ (match ?manga with Some _ => _ | None => _ end) =>
        destruct manga
    end; returns.
    + apply returns_query. unfold select_chapters_of. rewrite Hoc. simpl. eauto.
    + apply returns_query. unfold select_queue_of. rewrite Hdq. simpl. eauto.
Qed.

(** X6: over an existing catalogue file, a run of the single-work lookup
    ends with the connection closed exactly when it returns (found or not
    found), and still open when a statement raises; with the three tables
    in place it always returns. *)
Theorem lookup_connection_closed_when_it_returns
        (engine : SqlEngine) (manga_id extension_id : string)
        (d : Database) (w : World) :
  db_file w = Some d ->
  match check_specific_manga manga_id extension_id w with
  | (Ok _, w') => conn w' = Closed
  | (Raise _, w') => conn w' = Connected
  end
  /\ forall oms ocs dqs,
       offline_manga d = Some oms ->
       offline_chapters d = Some ocs ->
       download_queue d = Some dqs ->
       fst (check_specific_manga manga_id extension_id w) = Ok tt.
Proof.
  intros Hd. split.
  - destruct (check_specific_manga_after_connect manga_id extension_id)
      as [rest [Hrest ->]].
    rewrite connect_db_then, Hd. now apply Hrest.
  - intros oms ocs dqs Hom Hoc Hdq.
    destruct (returns_check_specific_manga manga_id extension_id d oms ocs dqs
                Hom Hoc Hdq w Hd) as [[] Ha].
    exact Ha.
Qed.

Lemma lookup_connection_closed_when_it_returns_witness :
  fst (@check_specific_manga stable_engine "m-1" "com.weebcentral.manga"
         (start (Some sample_store) 0)) = Ok tt.
Proof.
  destruct (lookup_connection_closed_when_it_returns
              stable_engine "m-1" "com.weebcentral.manga" sample_store
              (start (Some sample_store) 0) eq_refl) as [_ H].
  exact (H [sample_work] [sample_chapter] [sample_entry] eq_refl eq_refl eq_refl).
Defined.

(* ================================================================== *)
(** ** The statistics *)

Lemma queue_lengths_sum (dqs : list dq.row) :
  (List.length (filter (status_is "queued") dqs)
   + List.length (filter (status_is "downloading") dqs)
   + List.length (filter (status_is "failed") dqs)
   + List.length (filter uncounted dqs)
   = List.length dqs)%nat.
Proof.
  unfold status_is, uncounted, counted_statuses.
  induction dqs as [|q r IH]; [reflexivity|]. simpl in IH |- *.
  destruct (String.eqb_spec (dq.status q) "queued") as [Hq|Hq].
  - rewrite Hq. simpl. lia.
  - destruct (String.eqb_spec (dq.status q) "downloading") as [Hd|Hd].
    + rewrite Hd. simpl. lia.
    + destruct (String.eqb_spec (dq.status q) "failed") as [Hf|Hf].
      * simpl. lia.
      * simpl. lia.
Qed.

Lemma queue_counts_sum (dqs : list dq.row) :
  Sql.count (filter (status_is "queued") dqs)
  + Sql.count (filter (status_is "downloading") dqs)
  + Sql.count (filter (status_is "failed") dqs)
  + Sql.count (filter uncounted dqs)
  = Sql.count dqs.
Proof. unfold Sql.count. pose proof (queue_lengths_sum dqs). lia. Qed.

Lemma filter_nil_iff {A} (p : A -> bool) (l : list A) :
  filter p l = [] <-> forall x, In x l -> p x = false.
Proof.
  split; [|apply filter_none].
  intros Hnil x Hx. destruct (p x) eqn:Hp; [|reflexivity].
  assert (Hin : In x (filter p l)) by (now apply filter_In).
  rewrite Hnil in Hin. destruct Hin.
Qed.



(** X8: on a table of non-negative sizes, the total size of the
    statistics is the sum of [total_size_bytes] over the rows of
    [offline_manga] as long as that sum is a 64-bit integer: [SUM] is NULL
    only for the empty table, where [or 0] gives the empty sum, and a sum
    that is 0 is reported as 0 as well.  When the sum is larger, the
    statement fails with "integer overflow". *)
Theorem total_size_is_the_sum (db : Database) (oms : list om.row) :
  offline_manga db = Some oms ->
  Forall (fun m => 0 <= om.total_size_bytes m) oms ->
  (zsum (map om.total_size_bytes oms) <= Sql.int64_max ->
   exists size,
     sum_total_size_bytes db = Ok size
     /\ (size = None <-> oms = [])
     /\ Py.or_int size 0 = zsum (map om.total_size_bytes oms))
  /\ (Sql.int64_max < zsum (map om.total_size_bytes oms) ->
      sum_total_size_bytes db = Raise (OperationalError "integer overflow")).
Proof.
  intros Hom Hall. rewrite (sum_total_size_bytes_nonneg db oms Hom Hall).
  destruct (Z.leb_spec (zsum (map om.total_size_bytes oms)) Sql.int64_max)
    as [Hfit|Hover]; (split; [|intros Hgt; try lia; reflexivity]).
  - intros _. eexists. split; [reflexivity|].
    destruct oms as [|m r].
    + repeat split; reflexivity.
    + split; [split; discriminate|].
      unfold Py.or_int.
      destruct (Z.eqb_spec (zsum (map om.total_size_bytes (m :: r))) 0) as [Hz|Hz];
        [now rewrite Hz | reflexivity].
  - intros Hle. lia.
Qed.

Lemma total_size_is_the_sum_witness :
  (exists size,
      sum_total_size_bytes (store_with_works [sample_work; sample_work_2; sample_work_3])
      = Ok size
      /\ Py.or_int size 0 = 3145728)
  /\ sum_total_size_bytes (store_with_works [huge_work 1; huge_work 2])
     = Raise (OperationalError "integer overflow").
Proof.
  split.
  - destruct (total_size_is_the_sum
                (store_with_works [sample_work; sample_work_2; sample_work_3])
                [sample_work; sample_work_2; sample_work_3] eq_refl)
      as [Hfit _].
    + repeat constructor; simpl; lia.
    + destruct Hfit as [size [Hsize [_ Hsum]]].
      * vm_compute. discriminate.
      * exists size. split; [exact Hsize | exact Hsum].
  - destruct (total_size_is_the_sum
                (store_with_works [huge_work 1; huge_work 2])
                [huge_work 1; huge_work 2] eq_refl)
      as [_ Hover].
    + repeat constructor; simpl; lia.
    + apply Hover. vm_compute. reflexivity.
Defined.

(* ================================================================== *)
(** ** The frozen rows *)

Lemma filter_length_le {A} (p q : A -> bool) (l : list A) :
  (forall x, p x = true -> q x = true) ->
  (List.length (filter p l) <= List.length (filter q l))%nat.
Proof.
  intros Hpq. induction l as [|a r IH]; [apply le_n|]. simpl.
  destruct (p a) eqn:Hp.
  - rewrite (Hpq a Hp). simpl. lia.
  - destruct (q a); simpl; lia.
Qed.



(* ================================================================== *)
(** ** Chapters without their work *)

Lemma has_owner_iff (oms : list om.row) (c : oc.row) :
  has_owner oms c = true <->
  exists m, In m oms /\ om.id m = oc.offline_manga_id c.
Proof.
  unfold has_owner, owned_by. rewrite existsb_exists.
  split; intros [m [Hm Hid]]; exists m; (split; [exact Hm|]).
  - apply Z.eqb_eq in Hid. now symmetry.
  - apply Z.eqb_eq. now symmetry.
Qed.

Lemma owners_of_chapter (oms : list om.row) (c : oc.row) :
  NoDup (map om.id oms) ->
  List.length (filter (owned_by c) oms) = if has_owner oms c then 1%nat else 0%nat.
Proof.
  intros Hnd. destruct (has_owner oms c) eqn:Ho.
  - apply has_owner_iff in Ho. destruct Ho as [m [Hm Hid]].
    rewrite (filter_unique_key om.id (owned_by c) oms m Hnd); [reflexivity| |exact Hm|].
    + intros y _ Hy. unfold owned_by in Hy. apply Z.eqb_eq in Hy. congruence.
    + unfold owned_by. apply Z.eqb_eq. now symmetry.
  - rewrite filter_none; [reflexivity|].
    intros m Hm. destruct (owned_by c m) eqn:Hcm; [|reflexivity].
    assert (Hex : has_owner oms c = true)
      by (unfold has_owner; apply existsb_exists; now exists m).
    congruence.
Qed.

Lemma joined_chapters_length {B} (mk : oc.row -> om.row -> B)
      (oms : list om.row) (ocs : list oc.row) :
  NoDup (map om.id oms) ->
  List.length (flat_map (fun c => map (mk c) (filter (owned_by c) oms)) ocs)
  = List.length (filter (has_owner oms) ocs).
Proof.
  intros Hnd. induction ocs as [|c r IH]; [reflexivity|]. simpl.
  rewrite length_app, length_map, IH, (owners_of_chapter oms c Hnd).
  now destruct (has_owner oms c).
Qed.

Lemma filter_length_all {A} (p : A -> bool) (l : list A) :
  (List.length (filter p l) <= List.length l)%nat
  /\ (List.length (filter p l) = List.length l <-> forall x, In x l -> p x = true).
Proof.
  induction l as [|a r [IHle IHeq]]; simpl.
  - split; [apply le_n|]. split; [intros _ x []|reflexivity].
  - destruct (p a) eqn:Hp; simpl.
    + split; [lia|]. split.
      * intros Hlen x [<-|Hx]; [exact Hp|]. apply IHeq; [lia | exact Hx].
      * intros Hall. f_equal. apply IHeq. intros x Hx. apply Hall. now right.
    + split; [lia|]. split.
      * intros Hlen. lia.
      * intros Hall. specialize (Hall a (or_introl eq_refl)). congruence.
Qed.



(* ================================================================== *)
(** ** The order of the other listings *)

Lemma order_by_sorted_as {engine : SqlEngine} {A} (le : A -> A -> bool)
      (R : A -> A -> Prop) (l : list A) :
  (forall x y, le x y = true <-> R x y) ->
  (forall x y, R x y \/ R y x) ->
  (forall x y z, R x y -> R y z -> R x z) ->
  Permutation l (order_by le l) /\ StronglySorted R (order_by le l).
Proof.
  intros Hiff Htot Htr. split; [apply order_by_perm|].
  eapply StronglySorted_weaken; [intros x y; apply Hiff|].
  apply order_by_sorted.
  - intros x y. rewrite !Hiff. apply Htot.
  - intros x y z. rewrite !Hiff. apply Htr.
Qed.

(** X11: whatever the engine, the works section lists every row of
    [offline_manga] once, the most recently downloaded first: no row comes
    before one with a later [downloaded_at]. *)
Theorem works_listed_most_recent_first
        (engine : SqlEngine) (db : Database) (oms : list om.row) :
  offline_manga db = Some oms ->
  exists manga_list,
    select_offline_manga db = Ok manga_list
    /\ Permutation oms manga_list
    /\ StronglySorted (fun a b => om.downloaded_at b <= om.downloaded_at a)
                      manga_list.
Proof.
  intros Hom. unfold select_offline_manga. rewrite Hom. simpl.
  eexists. split; [reflexivity|].
  apply order_by_sorted_as.
  - intros x y. unfold by_downloaded_desc. apply Z.leb_le.
  - intros x y. lia.
  - intros x y z. lia.
Qed.

Lemma works_listed_most_recent_first_witness :
  let listing := [sample_work_2; sample_work; sample_work_3] in
  @select_offline_manga stable_engine (library_store []) = Ok listing
  /\ Permutation [sample_work; sample_work_2; sample_work_3] listing
  /\ StronglySorted (fun a b => om.downloaded_at b <= om.downloaded_at a) listing.
Proof.
  intros listing.
  destruct (works_listed_most_recent_first stable_engine (library_store [])
              [sample_work; sample_work_2; sample_work_3] eq_refl)
    as [l [Hsel [Hperm Hsorted]]].
  assert (Hl : l = listing)
    by (vm_compute in Hsel; injection Hsel as <-; reflexivity).
  rewrite Hl in *.
  split; [exact Hsel|]. split; [exact Hperm | exact Hsorted].
Defined.

(** X12: whatever the engine, the lookup lists the chapters whose
    [offline_manga_id] is the id of the work that was found, each once and
    no other, by ascending [chapter_number]. *)
Theorem lookup_chapters_by_number
        (engine : SqlEngine) (db : Database) (ocs : list oc.row)
        (manga_row_id : Z) :
  offline_chapters db = Some ocs ->
  exists chapters,
    select_chapters_of manga_row_id db = Ok chapters
    /\ Permutation (filter (fun c => oc.offline_manga_id c =? manga_row_id) ocs)
                   chapters
    /\ (forall c, In c chapters <->
                  In c ocs /\ oc.offline_manga_id c = manga_row_id)
    /\ StronglySorted (fun a b => (oc.chapter_number a <= oc.chapter_number b)%Q)
                      chapters.
Proof.
  intros Hoc. unfold select_chapters_of. rewrite Hoc. simpl.
  eexists. split; [reflexivity|].
  destruct (order_by_sorted_as by_number
              (fun a b => (oc.chapter_number a <= oc.chapter_number b)%Q)
              (filter (fun c => oc.offline_manga_id c =? manga_row_id) ocs))
    as [Hperm Hsorted].
  - intros x y. unfold by_number. apply Qle_bool_iff.
  - intros x y.
    destruct (Qlt_le_dec (oc.chapter_number y) (oc.chapter_number x)) as [Hlt|Hle];
      [right; now apply Qlt_le_weak | now left].
  - intros x y z. apply Qle_trans.
  - split; [exact Hperm|]. split; [|exact Hsorted].
    intros c. split.
    + intros Hc. apply (Permutation_in _ (Permutation_sym Hperm)) in Hc.
      apply filter_In in Hc. destruct Hc as [Hc Hid].
      split; [exact Hc | now apply Z.eqb_eq].
    + intros [Hc Hid]. apply (Permutation_in _ Hperm).
      apply filter_In. split; [exact Hc | now apply Z.eqb_eq].
Qed.

Lemma lookup_chapters_by_number_witness :
  let listing := [ chapter_row 13 1 "ch-0" (1 # 2)%Q;
                   sample_chapter;
                   chapter_row 12 1 "ch-2" 2%Q ] in
  @select_chapters_of stable_engine 1 (library_store []) = Ok listing
  /\ ~ In (chapter_row 11 2 "ch-1" (3 # 2)%Q) listing
  /\ StronglySorted (fun a b => (oc.chapter_number a <= oc.chapter_number b)%Q)
                    listing.
Proof.
  intros listing.
  destruct (lookup_chapters_by_number stable_engine (library_store [])
              sample_chapters 1 eq_refl)
    as [l [Hsel [_ [Hin Hsorted]]]].
  assert (Hl : l = listing)
    by (vm_compute in Hsel; injection Hsel as <-; reflexivity).
  rewrite Hl in *. split; [exact Hsel|]. split; [|exact Hsorted].
  intros Hb. apply Hin in Hb. destruct Hb as [_ Hid]. discriminate Hid.
Defined.

(* ================================================================== *)
(** ** The range of the percentage *)

(** X13: with a positive [progress_total], the percentage is between 0 and
    100 when [progress_current] is between 0 and the total; the script does
    not clamp it, so it is at least 100 when the current count reaches or
    exceeds the total and at most 0 when the current count is not
    positive.  (These are the bounds that the rounding of Python's float
    division keeps: the quotient is read as an exact rational here.) *)
Theorem progress_percentage_range (item : dq.row) (total : Z) :
  dq.progress_total item = Some total ->
  0 < total ->
  exists pct : Q,
    progress_pct item = Ok pct
    /\ (0 <= dq.progress_current item <= total -> (0 <= pct /\ pct <= 100)%Q)
    /\ (total <= dq.progress_current item -> (100 <= pct)%Q)
    /\ (dq.progress_current item <= 0 -> (pct <= 0)%Q).
Proof.
  intros Ht Hpos. rewrite progress_pct_cases, Ht.
  destruct (Z.ltb_spec 0 total) as [_|Hle]; [|lia].
  eexists. split; [reflexivity|].
  destruct total as [|p|p]; try lia.
  set (current := dq.progress_current item).
  unfold Qle, Qdiv, Qmult, Qinv, inject_Z. simpl.
  repeat split; intros; nia.
Qed.

Lemma progress_percentage_range_witness :
  (exists pct : Q,
      progress_pct (with_progress 3 (Some 4) sample_entry) = Ok pct
      /\ (0 <= pct /\ pct <= 100)%Q)
  /\ (exists pct : Q,
         progress_pct (with_progress 9 (Some 4) sample_entry) = Ok pct
         /\ (100 <= pct)%Q).
Proof.
  split.
  - destruct (progress_percentage_range (with_progress 3 (Some 4) sample_entry) 4
                eq_refl ltac:(lia)) as [pct [Hpct [Hrange _]]].
    exists pct. split; [exact Hpct|]. apply Hrange. simpl. lia.
  - destruct (progress_percentage_range (with_progress 9 (Some 4) sample_entry) 4
                eq_refl ltac:(lia)) as [pct [Hpct [_ [Hover _]]]].
    exists pct. split; [exact Hpct|]. apply Hover. simpl. lia.
Defined.

(* ================================================================== *)
(** ** The rendering of a timestamp *)

Lemma str_int_reads_back (n : Z) :
  option_map Z.of_int (NilZero.int_of_string (str_int n)) = Some n.
Proof.
  unfold str_int. rewrite NilZero.isi.
  - simpl. now rewrite DecimalZ.of_to.
  - destruct n as [|p|p]; simpl; try discriminate.
    intros H. injection H as H. now apply DecimalPos.Unsigned.to_uint_nonnil in H.
  - destruct n as [|p|p]; simpl; try discriminate.
    intros H. injection H as H. now apply DecimalPos.Unsigned.to_uint_nonnil in H.
Qed.

(** X14: [format_timestamp] never raises, whatever the date conversion of
    the machine does: a NULL timestamp gives "N/A", a timestamp the
    conversion accepts gives its text, and one on which it raises (any
    exception, the [except] is bare) gives the decimal text of the raw
    number, which reads back as that number. *)
Theorem format_timestamp_never_raises
        (strftime_local : Q -> result string) (ts : option Z) :
  exists text,
    format_timestamp strftime_local ts = Ok text
    /\ (ts = None -> text = "N/A")
    /\ (forall t shown, ts = Some t ->
          strftime_local (inject_Z t / inject_Z 1000)%Q = Ok shown ->
          text = shown)
    /\ (forall t e, ts = Some t ->
          strftime_local (inject_Z t / inject_Z 1000)%Q = Raise e ->
          text = str_int t
          /\ option_map Z.of_int (NilZero.int_of_string text) = Some t).
Proof.
  destruct ts as [t|]; simpl.
  - destruct (strftime_local (inject_Z t / inject_Z 1000)%Q) as [shown|e] eqn:Hlib;
      simpl; eexists; (split; [reflexivity|]);
      (split; [discriminate|]); split.
    + intros t' shown' Ht Hs. injection Ht as <-. congruence.
    + intros t' e' Ht Hs. injection Ht as <-. congruence.
    + intros t' shown' Ht Hs. injection Ht as <-. congruence.
    + intros t' e' Ht _. injection Ht as <-.
      split; [reflexivity | apply str_int_reads_back].
  - exists "N/A". split; [reflexivity|]. split; [reflexivity|].
    split; discriminate.
Qed.

(* ================================================================== *)
(** ** The chapter listing and its headings *)

Lemma string_ltb_lt (a b : string) : String.ltb a b = true <-> String_as_OT.lt a b.
Proof.
  unfold String.ltb. rewrite <- String_as_OT.cmp_lt. unfold String_as_OT.cmp.
  destruct (String.compare a b); split; congruence.
Qed.

Lemma string_lt_trichotomy (a b : string) :
  String_as_OT.lt a b \/ a = b \/ String_as_OT.lt b a.
Proof.
  destruct (String.compare a b) eqn:Hc.
  - right. left. now apply String_as_OT.cmp_eq.
  - left. now apply String_as_OT.cmp_lt.
  - right. right. apply String_as_OT.cmp_lt.
    unfold String_as_OT.cmp. rewrite String.compare_antisym, Hc. reflexivity.
Qed.

Lemma string_lt_irrefl (a : string) : ~ String_as_OT.lt a a.
Proof. intros H. exact (String_as_OT.lt_not_eq _ _ H Logic.eq_refl). Qed.

Lemma by_slug_number_iff (a b : chapter_listing.row) :
  by_slug_number a b = true <-> slug_number_order a b.
Proof.
  unfold by_slug_number, slug_number_order.
  rewrite orb_true_iff, andb_true_iff, string_ltb_lt, String.eqb_eq, Qle_bool_iff.
  reflexivity.
Qed.

Lemma slug_number_order_total (a b : chapter_listing.row) :
  slug_number_order a b \/ slug_number_order b a.
Proof.
  unfold slug_number_order.
  destruct (string_lt_trichotomy (chapter_listing.manga_slug a)
                                 (chapter_listing.manga_slug b))
    as [Hlt|[Heq|Hgt]].
  { left. left. exact Hlt. }
  2: { right. left. exact Hgt. }
  destruct (Qlt_le_dec (chapter_listing.chapter_number b)
                       (chapter_listing.chapter_number a)) as [Hn|Hn].
  - right. right. split; [now symmetry | now apply Qlt_le_weak].
  - left. right. now split.
Qed.

Lemma slug_number_order_trans (a b c : chapter_listing.row) :
  slug_number_order a b -> slug_number_order b c -> slug_number_order a c.
Proof.
  unfold slug_number_order.
  intros [Hab|[Hab Hnab]] [Hbc|[Hbc Hnbc]].
  - left. eapply String_as_OT.lt_trans; eassumption.
  - left. now rewrite <- Hbc.
  - left. now rewrite Hab.
  - right. split; [congruence | eapply Qle_trans; eassumption].
Qed.

Lemma select_offline_chapters_sorted {engine : SqlEngine} (db : Database)
      (oms : list om.row) (ocs : list oc.row) :
  offline_manga db = Some oms ->
  offline_chapters db = Some ocs ->
  exists chapters,
    select_offline_chapters db = Ok chapters
    /\ Permutation
         (flat_map (fun c => map (mk_chapter_listing c) (filter (owned_by c) oms)) ocs)
         chapters
    /\ StronglySorted slug_number_order chapters.
Proof.
  intros Hom Hoc. unfold select_offline_chapters. rewrite Hom, Hoc. simpl.
  eexists. split; [reflexivity|].
  apply order_by_sorted_as.
  - apply by_slug_number_iff.
  - apply slug_number_order_total.
  - apply slug_number_order_trans.
Qed.

(** X15: whatever the engine, the chapters section lists the joined rows
    (each chapter with its work) ordered by the slug of the work, compared
    as byte strings, and within a work by ascending chapter number. *)
Theorem chapters_listed_by_slug_then_number
        (engine : SqlEngine) (db : Database)
        (oms : list om.row) (ocs : list oc.row) :
  offline_manga db = Some oms ->
  offline_chapters db = Some ocs ->
  exists chapters,
    select_offline_chapters db = Ok chapters
    /\ Permutation
         (flat_map (fun c => map (mk_chapter_listing c) (filter (owned_by c) oms)) ocs)
         chapters
    /\ StronglySorted slug_number_order chapters.
Proof. intros Hom Hoc. now apply select_offline_chapters_sorted. Qed.

Lemma chapters_listed_by_slug_then_number_witness :
  exists chapters,
    @select_offline_chapters stable_engine (library_store []) = Ok chapters
    /\ map (fun c => (chapter_listing.manga_slug c, chapter_listing.chapter_id c))
           chapters
       = [("one", "ch-0"); ("one", "ch-1"); ("one", "ch-2"); ("two", "ch-1")]
    /\ StronglySorted slug_number_order chapters.
Proof.
  destruct (chapters_listed_by_slug_then_number stable_engine (library_store [])
              [sample_work; sample_work_2; sample_work_3] sample_chapters
              eq_refl eq_refl)
    as [chapters [Hsel [_ Hsorted]]].
  exists chapters. split; [exact Hsel|]. split; [|exact Hsorted].
  vm_compute in Hsel. injection Hsel as <-. reflexivity.
Defined.

Lemma add_lines_app (a b : list line) (w : World) :
  add_lines (a ++ b) w = add_lines b (add_lines a w).
Proof. unfold add_lines. apply fold_left_app. Qed.

Lemma print_chapters_output (chapters : list chapter_listing.row) :
  forall current_manga w,
    print_chapters current_manga chapters w
    = (Ok tt, add_lines (chapters_output current_manga chapters) w).
Proof.
  induction chapters as [|c r IH]; intros current w; [reflexivity|].
  destruct current as [s|]; cbn [print_chapters chapters_output is_current];
    [destruct (String.eqb_spec s (chapter_listing.manga_slug c)) as [->|_]|];
    unfold bind, print, when, ret;
    cbn -[print_chapters chapters_output add_lines];
    rewrite IH; reflexivity.
Qed.

Lemma section_offline_chapters_output {engine : SqlEngine} (d : Database)
      (chapters : list chapter_listing.row) (w : World) :
  db_file w = Some d ->
  select_offline_chapters d = Ok chapters ->
  section_offline_chapters w
  = (Ok tt, add_lines (chapters_section_lines chapters) w).
Proof.
  intros Hd Hsel. unfold section_offline_chapters, chapters_section_lines.
  unfold bind, print, execute, query.
  cbn -[select_offline_chapters print_chapters chapters_output].
  rewrite Hd, Hsel. rewrite !add_lines_app.
  destruct chapters as [|c r]; [reflexivity|].
  cbn -[print_chapters chapters_output]. rewrite print_chapters_output.
  reflexivity.
Qed.

Lemma heading_count_app (slug : string) (a b : list line) :
  List.length (filter (is_heading_of slug) (a ++ b))
  = (List.length (filter (is_heading_of slug) a)
     + List.length (filter (is_heading_of slug) b))%nat.
Proof. now rewrite filter_app, length_app. Qed.

Lemma chapter_lines_no_heading (slug : string) (c : chapter_listing.row) :
  filter (is_heading_of slug) (chapter_lines c) = [].
Proof. reflexivity. Qed.

Lemma heading_line_is_heading (slug s : string) :
  is_heading_of slug (heading_line s) = String.eqb s slug.
Proof. reflexivity. Qed.

(** In a listing sorted by slug, read after a chapter of the work
    [current_manga], the loop prints the heading of [slug] once when the
    listing has a chapter of it and it is not the current work, and not at
    all otherwise. *)
Lemma headings_of_sorted_listing (slug : string)
      (chapters : list chapter_listing.row) :
  forall current_manga,
    StronglySorted slug_number_order chapters ->
    (forall p c, current_manga = Some p -> In c chapters ->
                 String_as_OT.lt p (chapter_listing.manga_slug c)
                 \/ p = chapter_listing.manga_slug c) ->
    List.length (filter (is_heading_of slug)
                        (chapters_output current_manga chapters))
    = if existsb (fun c => String.eqb (chapter_listing.manga_slug c) slug) chapters
         && negb (is_current current_manga slug)
      then 1%nat else 0%nat.
Proof.
  induction chapters as [|c r IH]; intros current Hsorted Hbound; [reflexivity|].
  apply StronglySorted_inv in Hsorted. destruct Hsorted as [Hr Hc].
  rewrite Forall_forall in Hc.
  cbn [chapters_output existsb].
  rewrite !heading_count_app, chapter_lines_no_heading.
  rewrite (IH (Some (chapter_listing.manga_slug c)) Hr).
  2: { intros p c' Hp Hc'. injection Hp as <-.
       destruct (Hc c' Hc') as [Hlt|[Heq _]]; [now left | now right]. }
  assert (Hhead :
            List.length
              (filter (is_heading_of slug)
                 (if is_current current (chapter_listing.manga_slug c)
                  then []
                  else [heading_line (chapter_listing.manga_slug c)]))
            = if is_current current (chapter_listing.manga_slug c) then 0%nat
              else if String.eqb (chapter_listing.manga_slug c) slug
                   then 1%nat else 0%nat).
  { destruct (is_current current (chapter_listing.manga_slug c)); [reflexivity|].
    cbn [filter]. rewrite heading_line_is_heading.
    now destruct (String.eqb (chapter_listing.manga_slug c) slug). }
  rewrite Hhead. cbn [List.length Nat.add is_current].
  destruct (existsb (fun c0 => String.eqb (chapter_listing.manga_slug c0) slug) r)
    eqn:Hex.
  - destruct (String.eqb_spec (chapter_listing.manga_slug c) slug) as [Hs|Hs].
    + rewrite Hs. now destruct (is_current current slug).
    + destruct (is_current current slug) eqn:Hcur;
        [|now destruct (is_current current (chapter_listing.manga_slug c))].
      (* the current work is [slug] and a later chapter is of [slug] too:
         then this chapter, between them, would be of [slug] *)
      exfalso. apply Hs.
      destruct current as [p|]; [|discriminate]. simpl in Hcur.
      apply String.eqb_eq in Hcur. subst p.
      apply existsb_exists in Hex. destruct Hex as [c' [Hc' Hslug]].
      apply String.eqb_eq in Hslug.
      assert (Hle1 : String_as_OT.lt slug (chapter_listing.manga_slug c)
                     \/ slug = chapter_listing.manga_slug c)
        by (apply (Hbound slug c Logic.eq_refl); now left).
      assert (Hle2 : String_as_OT.lt (chapter_listing.manga_slug c) slug
                     \/ chapter_listing.manga_slug c = slug).
      { destruct (Hc c' Hc') as [Hlt|[Heq _]]; rewrite Hslug in *;
          [now left | now right]. }
      destruct Hle1 as [Hlt1|Heq1]; [|now symmetry].
      destruct Hle2 as [Hlt2|Heq2]; [|exact Heq2].
      exfalso. apply (string_lt_irrefl slug).
      eapply String_as_OT.lt_trans; eassumption.
  - destruct (String.eqb_spec (chapter_listing.manga_slug c) slug) as [Hs|Hs].
    + rewrite Hs. now destruct (is_current current slug).
    + now destruct (is_current current (chapter_listing.manga_slug c)).
Qed.



(* ================================================================== *)
(** ** The lookup of a work that is there *)


Lemma db_file_add_lines (ls : list line) (w : World) :
  db_file (add_lines ls w) = db_file w.
Proof.
  unfold add_lines. revert w. induction ls as [|l r IH]; intros w; [reflexivity|].
  simpl. now rewrite IH.
Qed.

Lemma prints_print (d : Database) (l : line) : prints d (print l) tt [l].
Proof. intros w _. reflexivity. Qed.

Lemma prints_query {A} (d : Database) (q : Database -> result A) (a : A) :
  q d = Ok a -> prints d (execute (query q)) a [].
Proof. intros Hq w Hw. unfold execute, query. now rewrite Hw, Hq. Qed.

Lemma prints_bind {A B} (d : Database) (m : M A) (k : A -> M B)
      (a : A) (b : B) (ls1 ls2 : list line) :
  prints d m a ls1 -> prints d (k a) b ls2 -> prints d (bind m k) b (ls1 ++ ls2).
Proof.
  intros Hm Hk w Hw. unfold bind. rewrite (Hm w Hw), Hk.
  - now rewrite add_lines_app.
  - now rewrite db_file_add_lines.
Qed.

Lemma prints_for_each {A} (d : Database) (body : A -> M unit)
      (lines : A -> list line) (xs : list A) :
  (forall x, prints d (body x) tt (lines x)) ->
  prints d (for_each xs body) tt (flat_map lines xs).
Proof.
  intros Hbody. induction xs as [|x r IH]; [intros w _; reflexivity|].
  cbn [for_each flat_map]. eapply prints_bind; [apply Hbody | exact IH].
Qed.

Lemma prints_when_nonempty {A} (d : Database) (body : A -> M unit)
      (xs : list A) (ls : list line) :
  prints d (for_each xs body) tt ls ->
  prints d (when (negb (is_empty xs)) (for_each xs body)) tt ls.
Proof. now destruct xs. Qed.

Lemma prints_and_closes_close (d : Database) : prints_and_closes d conn_close [].
Proof. intros w _. reflexivity. Qed.

Lemma prints_and_closes_bind {A} (d : Database) (m : M A) (k : A -> M unit)
      (a : A) (ls1 ls2 : list line) :
  prints d m a ls1 -> prints_and_closes d (k a) ls2 ->
  prints_and_closes d (bind m k) (ls1 ++ ls2).
Proof.
  intros Hm Hk w Hw. unfold bind. rewrite (Hm w Hw), Hk.
  - now rewrite add_lines_app.
  - now rewrite db_file_add_lines.
Qed.

Lemma prints_print_chapter_brief (d : Database) (ch : oc.row) :
  prints d (print_chapter_brief ch) tt (chapter_brief_lines ch).
Proof. intros w _. reflexivity. Qed.

Lemma prints_print_queue_brief (d : Database) (item : dq.row) :
  prints d (print_queue_brief item) tt (queue_brief_lines item).
Proof.
  intros w _.
  unfold print_queue_brief, queue_brief_lines, queue_brief_line, bind, print,
    when, ret.
  now destruct (Py.truthy_str (dq.error_message item)).
Qed.

(** X17: for a work that the lookup finds, the report is: the row's id,
    slug and size; the number of chapters whose [offline_manga_id] is the
    row's id, followed by those chapters; and the number of queue entries
    with the business key that was asked for, followed by those entries,
    each with its glyph and status and, when it has one, its error
    message.  The connection is closed at the end. *)
Theorem lookup_of_known_work
        (engine : SqlEngine) (manga_id extension_id : string)
        (d : Database) (ocs : list oc.row) (dqs : list dq.row)
        (manga : om.row) (w : World) :
  db_file w = Some d ->
  offline_chapters d = Some ocs ->
  download_queue d = Some dqs ->
  select_manga extension_id manga_id d = Ok (Some manga) ->
  exists chapters queue_items,
    select_chapters_of (om.id manga) d = Ok chapters
    /\ select_queue_of extension_id manga_id d = Ok queue_items
    /\ Z.of_nat (List.length chapters)
       = Sql.count (filter (fun c => oc.offline_manga_id c =? om.id manga) ocs)
    /\ Z.of_nat (List.length queue_items)
       = Sql.count (filter (queue_of extension_id manga_id) dqs)
    /\ check_specific_manga manga_id extension_id w
       = (Ok tt,
          set_conn Closed
            (add_lines (found_lines manga_id manga chapters queue_items)
                       (set_conn Connected w))).
Proof.
  intros Hd Hoc Hdq Hsel.
  exists (order_by by_number
            (filter (fun c => oc.offline_manga_id c =? om.id manga) ocs)),
         (order_by by_priority_desc_queued_asc
            (filter (queue_of extension_id manga_id) dqs)).
  assert (Hch : select_chapters_of (om.id manga) d
                = Ok (order_by by_number
                        (filter (fun c => oc.offline_manga_id c =? om.id manga) ocs)))
    by (unfold select_chapters_of; now rewrite Hoc).
  assert (Hqu : select_queue_of extension_id manga_id d
                = Ok (order_by by_priority_desc_queued_asc
                        (filter (queue_of extension_id manga_id) dqs)))
    by (unfold select_queue_of; now rewrite Hdq).
  split; [exact Hch|]. split; [exact Hqu|].
  split; [unfold Sql.count; f_equal; symmetry;
          apply Permutation_length, order_by_perm|].
  split; [unfold Sql.count; f_equal; symmetry;
          apply Permutation_length, order_by_perm|].
  unfold check_specific_manga. rewrite connect_db_then, Hd.
  match goal with
  | |- ?rest (set_conn Connected w) = _ =>
      assert (Hrest : exists ls,
                 prints_and_closes d rest ls
                 /\ ls = found_lines manga_id manga
                           (order_by by_number
                              (filter (fun c => oc.offline_manga_id c =? om.id manga)
                                      ocs))
                           (order_by by_priority_desc_queued_asc
                              (filter (queue_of extension_id manga_id) dqs)))
  end.
  { eexists. split.
    - do 4 (eapply prints_and_closes_bind; [apply prints_print|]).
      eapply prints_and_closes_bind; [apply prints_query, Hsel|].
      do 5 (eapply prints_and_closes_bind; [apply prints_print|]).
      eapply prints_and_closes_bind; [apply prints_query, Hch|].
      eapply prints_and_closes_bind; [apply prints_print|].
      eapply prints_and_closes_bind;
        [apply prints_when_nonempty, (prints_for_each d _ chapter_brief_lines),
           prints_print_chapter_brief|].
      eapply prints_and_closes_bind; [apply prints_print|].
      eapply prints_and_closes_bind; [apply prints_query, Hqu|].
      eapply prints_and_closes_bind; [apply prints_print|].
      eapply prints_and_closes_bind;
        [apply prints_when_nonempty, (prints_for_each d _ queue_brief_lines),
           prints_print_queue_brief|].
      apply prints_and_closes_close.
    - unfold found_lines. simpl. now rewrite app_nil_r. }
  destruct Hrest as [ls [Hrun ->]].
  apply Hrun. exact Hd.
Qed.

Lemma lookup_of_known_work_witness :
  exists chapters queue_items,
    @check_specific_manga stable_engine "m-1" "com.weebcentral.manga"
       (start (Some sample_store) 0)
    = (Ok tt,
       set_conn Closed
         (add_lines (found_lines "m-1" sample_work chapters queue_items)
                    (set_conn Connected (start (Some sample_store) 0)))).
Proof.
  destruct (lookup_of_known_work stable_engine "m-1" "com.weebcentral.manga"
              sample_store [sample_chapter] [sample_entry] sample_work
              (start (Some sample_store) 0) eq_refl eq_refl eq_refl eq_refl)
    as [chapters [queue_items [_ [_ [_ [_ Hrun]]]]]].
  exists chapters, queue_items. exact Hrun.
Defined.
